(** * SoundWire bus binding layer: matching, modalias, probe/remove, registration

    A shallow embedding of [soundwire/bus_type.c] (with the controller
    device record of [soundwire/master.c]) and the properties of its
    match predicate, modalias formatter, bind protocol and driver
    registration facade. *)

From Stdlib Require Import ZArith List String Ascii Bool Lia.
From Stdlib Require Import Decimal DecimalString DecimalZ DecimalPos Permutation.
Import ListNotations.

Local Open Scope string_scope.
Local Open Scope list_scope.
Local Open Scope Z_scope.

(** ** Kernel constants and library routines used by the bus code *)

(** Error numbers of the kernel's errno-base.h. *)
Definition ENOMEM : Z := 12.
Definition ENODEV : Z := 19.
Definition EINVAL : Z := 22.

(** C truth value of an int used as a condition. *)
Definition truthy (x : Z) : bool := negb (x =? 0).

(** [!x] on an int. *)
Definition lnot (x : Z) : Z := if x =? 0 then 1 else 0.

(** A C string is held as the characters in front of its terminator;
    reading at the end of the Rocq string reads the terminating NUL. *)
Definition NUL : ascii := Ascii.zero.

Definition deref (s : string) : ascii :=
  match s with
  | EmptyString => NUL
  | String c _ => c
  end.

Definition next (s : string) : string :=
  match s with
  | EmptyString => EmptyString
  | String _ r => r
  end.

(** [strlen]: number of characters in front of the first NUL. *)
Fixpoint strlen (s : string) : nat :=
  match s with
  | EmptyString => O
  | String c r => if Ascii.eqb c NUL then O else S (strlen r)
  end.

(** [strncmp] of the kernel's lib/string.c: compares at most [count]
    characters as unsigned char and stops after a common NUL. *)
Fixpoint strncmp (cs ct : string) (count : nat) : Z :=
  match count with
  | O => 0
  | S n =>
      let c1 := deref cs in
      let c2 := deref ct in
      if negb (Ascii.eqb c1 c2)
      then (if (N_of_ascii c1 <? N_of_ascii c2)%N then -1 else 1)
      else if Ascii.eqb c1 NUL then 0
      else strncmp (next cs) (next ct) n
  end.

(** ** Data model *)

(** [struct sdw_device_id]: one entry of a driver's identity table. *)
Record sdw_device_id := mk_device_id {
  mfg_id : Z;   (* __u16 *)
  part_id : Z   (* __u16 *)
}.

(** [struct sdw_slave_id]: the identity read from a peripheral. *)
Record sdw_slave_id := mk_slave_id {
  slave_mfg_id : Z;   (* __u16 *)
  slave_part_id : Z   (* __u16 *)
}.

(** [struct completion], as the number of times it has been released. *)
Record completion := mk_completion { done : nat }.

Definition init_completion : completion := mk_completion O.

Definition complete (x : completion) : completion :=
  mk_completion (S (done x)).

(** [struct sdw_bus], the bus instance [slave->bus] points to. *)
Record sdw_bus := mk_bus {
  clk_stop_timeout : Z   (* u32 *)
}.

(** [struct sdw_slave_prop], the property bag. *)
Record sdw_slave_prop := mk_prop {
  prop_clk_stop_timeout : Z   (* u32 *)
}.

(** The part of [struct sdw_slave] a driver callback may write through
    the device pointer it is handed: the property bag, the bind
    bookkeeping and the bus instance behind [slave->bus]. *)
Record slave_state := mk_slave_state {
  bus : sdw_bus;
  prop : sdw_slave_prop;
  probed : bool;
  probe_complete : completion
}.

(** A driver callback on a peripheral: return code and device state. *)
Definition slave_cb := slave_state -> Z * slave_state.

(** [struct sdw_slave_ops]: only [read_prop] is used by the bus code. *)
Record sdw_slave_ops := mk_slave_ops {
  read_prop : option slave_cb
}.

(** [struct sdw_slave].  [ops] is NULL ([None]) until a probe installs
    the driver's capability set. *)
Record sdw_slave := mk_slave {
  id : sdw_slave_id;
  ops : option sdw_slave_ops;
  st : slave_state
}.

Definition set_ops (slave : sdw_slave) (o : option sdw_slave_ops) : sdw_slave :=
  mk_slave (id slave) o (st slave).

Definition set_st (slave : sdw_slave) (s : slave_state) : sdw_slave :=
  mk_slave (id slave) (ops slave) s.

(** [struct sdw_master_device], as [sdw_master_device_add] fills it. *)
Record sdw_master_device := mk_master_device {
  master_name : string;
  link_id : Z;
  pdata : Z;   (* void * *)
  md_probe_complete : completion
}.

(** The bus callbacks that registration installs in a
    [struct device_driver]. *)
Inductive bus_callback :=
| cb_sdw_drv_probe
| cb_sdw_drv_remove
| cb_sdw_drv_shutdown
| cb_sdw_master_drv_probe
| cb_sdw_master_drv_remove
| cb_sdw_master_drv_shutdown.

Inductive bus_type := sdw_bus_type.

(** [struct device_driver], the part the bus code touches. *)
Record device_driver := mk_device_driver {
  driver_name : string;
  driver_bus : option bus_type;
  driver_owner : option string;   (* struct module * *)
  driver_probe : option bus_callback;
  driver_remove : option bus_callback;
  driver_shutdown : option bus_callback
}.

(** [struct sdw_driver].  A NULL function or table pointer is [None]. *)
Record sdw_driver := mk_driver {
  name : string;
  probe : option (slave_state -> sdw_device_id -> Z * slave_state);
  remove : option slave_cb;
  shutdown : option (slave_state -> slave_state);
  id_table : option (list sdw_device_id);
  drv_ops : option sdw_slave_ops;
  driver : device_driver
}.

(** [struct sdw_master_driver]. *)
Record sdw_master_driver := mk_master_driver {
  m_probe : option (sdw_master_device -> Z -> Z * sdw_master_device);
  m_remove : option (sdw_master_device -> Z * sdw_master_device);
  m_shutdown : option (sdw_master_device -> sdw_master_device);
  m_driver : device_driver
}.

(** A [struct device] on the bus is embedded in a peripheral or in a
    controller ([is_sdw_slave] tells which); a [struct device_driver]
    is embedded in a driver of one of the two kinds. *)
Inductive device :=
| dev_of_slave (slave : sdw_slave)
| dev_of_master (md : sdw_master_device).

Inductive any_driver :=
| drv_of_sdw (drv : sdw_driver)
| drv_of_master (mdrv : sdw_master_driver).

Definition is_sdw_slave (dev : device) : bool :=
  match dev with
  | dev_of_slave _ => true
  | dev_of_master _ => false
  end.

(** ** Match predicate *)

(** Value of the [id] pointer that [sdw_get_device_id] returns: an entry
    of the table (with its position), NULL, or undefined when the scan
    ran past the end of a table that has no sentinel. *)
Inductive id_result :=
| IdFound (idx : nat) (entry : sdw_device_id)
| IdNull
| IdOverrun.

(** The [while] loop of [sdw_get_device_id], with [id] pointing at the
    head of [tbl] (entry number [idx]).  The second component counts the
    table entries the loop has read. *)
Fixpoint scan_id_table (slave : sdw_slave) (tbl : list sdw_device_id)
    (idx : nat) : id_result * nat :=
  match tbl with
  | [] => (IdOverrun, O)
  | entry :: rest =>
      if truthy (mfg_id entry) then
        if (slave_mfg_id (id slave) =? mfg_id entry) &&
           (slave_part_id (id slave) =? part_id entry)
        then (IdFound idx entry, 1%nat)
        else let (r, n) := scan_id_table slave rest (S idx) in (r, S n)
      else (IdNull, 1%nat)
  end.

Definition sdw_get_device_id (slave : sdw_slave) (drv : sdw_driver)
    : id_result * nat :=
  match id_table drv with
  | None => (IdNull, O)
  | Some tbl => scan_id_table slave tbl O
  end.

(** [!!p] on a pointer. *)
Definition ptr_to_bool (r : id_result) : option Z :=
  match r with
  | IdFound _ _ => Some 1
  | IdNull => Some 0
  | IdOverrun => None
  end.

(** [sdw_bus_match].  [None] stands for undefined behaviour: a table scan
    that overran, or [container_of] applied to a driver of the other
    kind. *)
Definition sdw_bus_match (dev : device) (ddrv : any_driver) : option Z :=
  match dev, ddrv with
  | dev_of_slave slave, drv_of_sdw drv =>
      ptr_to_bool (fst (sdw_get_device_id slave drv))
  | dev_of_master md, drv_of_master mdrv =>
      Some (lnot (strncmp (master_name md) (driver_name (m_driver mdrv))
                          (strlen (master_name md))))
  | _, _ => None
  end.

(** ** Modalias formatter *)

Definition LF : ascii := ascii_of_nat 10.

(** Digit [d] of the upper-case table "0123456789ABCDEF" that [%X]
    indexes. *)
Definition hex_digit_upper (d : Z) : ascii :=
  match d with
  | 0 => "0" | 1 => "1" | 2 => "2" | 3 => "3"
  | 4 => "4" | 5 => "5" | 6 => "6" | 7 => "7"
  | 8 => "8" | 9 => "9" | 10 => "A" | 11 => "B"
  | 12 => "C" | 13 => "D" | 14 => "E" | _ => "F"
  end%char.

(** Hexadecimal digits of [n] in front of [acc], most significant first:
    the least significant digit is produced first and further digits
    while the quotient is not zero ([fuel] bounds their number). *)
Fixpoint hex_upper (fuel : nat) (n : Z) (acc : string) : string :=
  let acc := String (hex_digit_upper (n mod 16)) acc in
  match fuel with
  | O => acc
  | S f => if n / 16 =? 0 then acc else hex_upper f (n / 16) acc
  end.

Fixpoint zero_pad (k : nat) (s : string) : string :=
  match k with
  | O => s
  | S k' => String "0"%char (zero_pad k' s)
  end.

(** The [%04X] conversion of an [unsigned int] argument: at most eight
    digits, padded with zeros on the left to a width of four. *)
Definition fmt_04X (v : Z) : string :=
  let digits := hex_upper 7 (v mod 2 ^ 32) "" in
  zero_pad (4 - String.length digits) digits.

(** [snprintf(buf, size, ...)] once the format has been expanded to
    [text]: the buffer receives at most [size - 1] characters in front
    of its terminator (nothing is written when [size] is zero) and the
    length of the whole text is returned. *)
Definition snprintf (buf : string) (size : nat) (text : string) : string * Z :=
  (match size with
   | O => buf
   | S n => substring 0 n text
   end,
   Z.of_nat (String.length text)).

Definition sdw_slave_modalias (slave : sdw_slave) (buf : string) (size : nat)
    : string * Z :=
  snprintf buf size
    ("sdw:m" ++ fmt_04X (slave_mfg_id (id slave)) ++
     "p" ++ fmt_04X (slave_part_id (id slave)) ++ String LF "")%string.

Definition sdw_master_modalias (md : sdw_master_device) (buf : string)
    (size : nat) : string * Z :=
  snprintf buf size ("sdw:" ++ master_name md ++ String LF "")%string.

(** ** Calls into the external collaborators *)

(** What a bus function asks of the power-domain subsystem, the driver,
    the completion and the device registry, in the order of the calls. *)
Inductive event :=
| EvPmAttach (power_on : bool) (ret : Z)
| EvPmDetach (power_on : bool)
| EvDrvProbe (ret : Z)
| EvReadProp
| EvComplete
| EvDrvRemove (ret : Z)
| EvDrvShutdown
| EvDevErr (drv_name : string) (ret : Z)
| EvPrErr (drv_name : string)
| EvDriverRegister (d : device_driver) (ret : Z)
| EvDriverUnregister (d : device_driver)
| EvUeventVar (text : string) (ret : Z).

(** Result of running a bus function: its return value, the record it
    worked on and the calls it made. *)
Record outcome (D : Type) := Outcome {
  retval : Z;
  dev_after : D;
  calls : list event
}.
Arguments Outcome {D} _ _ _.
Arguments retval {D} _.
Arguments dev_after {D} _.
Arguments calls {D} _.

Definition is_complete (e : event) : bool :=
  match e with EvComplete => true | _ => false end.

Definition is_drv_probe (e : event) : bool :=
  match e with EvDrvProbe _ => true | _ => false end.

Definition is_pm_detach (e : event) : bool :=
  match e with EvPmDetach _ => true | _ => false end.

Definition is_driver_register (e : event) : bool :=
  match e with EvDriverRegister _ _ => true | _ => false end.

(** Number of calls in a log that satisfy [p]. *)
Definition count (p : event -> bool) (log : list event) : nat :=
  List.length (filter p log).

(** Field updates of the device state. *)
Definition set_prop_clk_stop_timeout (s : slave_state) (v : Z) : slave_state :=
  mk_slave_state (bus s) (mk_prop v) (probed s) (probe_complete s).

Definition set_bus_clk_stop_timeout (s : slave_state) (v : Z) : slave_state :=
  mk_slave_state (mk_bus v) (prop s) (probed s) (probe_complete s).

Definition set_probed (s : slave_state) (b : bool) : slave_state :=
  mk_slave_state (bus s) (prop s) b (probe_complete s).

Definition set_probe_complete (s : slave_state) (c : completion) : slave_state :=
  mk_slave_state (bus s) (prop s) (probed s) c.

(** [max_t(u32, a, b)]: both operands cast to u32, then the larger. *)
Definition max_t_u32 (a b : Z) : Z :=
  let a' := a mod 2 ^ 32 in
  let b' := b mod 2 ^ 32 in
  if a' >? b' then a' else b'.

(** ** Bind protocol and registration facade *)

Section BusType.

(** The power-domain subsystem and the device registry are outside the
    bus code; only the value each call returns matters here. *)
Variable dev_pm_domain_attach : device -> bool -> Z.
Variable driver_register : device_driver -> Z.
Variable add_uevent_var : string -> Z.

(** [sdw_uevent], with [modalias] the 32-byte buffer on its stack. *)
Definition sdw_uevent (dev : device) : Z * list event :=
  let modalias :=
    match dev with
    | dev_of_slave slave => fst (sdw_slave_modalias slave "" 32)
    | dev_of_master md => fst (sdw_master_modalias md "" 32)
    end in
  let text := ("MODALIAS=" ++ modalias)%string in
  let r := add_uevent_var text in
  (if truthy r then - ENOMEM else 0, [EvUeventVar text r]).

(** Lines 136-138 of [sdw_drv_probe]: read the properties through the
    installed capability set, ignoring what [read_prop] returns. *)
Definition probe_read_prop (slave : sdw_slave) : sdw_slave * list event :=
  match ops slave with
  | Some o =>
      match read_prop o with
      | Some rp => (set_st slave (snd (rp (st slave))), [EvReadProp])
      | None => (slave, [])
      end
  | None => (slave, [])
  end.

(** Lines 146-150 of [sdw_drv_probe]: default the clock-stop timeout
    and raise the bus-wide one. *)
Definition probe_clk_stop_timeout (s : slave_state) : slave_state :=
  let s :=
    if prop_clk_stop_timeout (prop s) =? 0
    then set_prop_clk_stop_timeout s 300
    else s in
  set_bus_clk_stop_timeout s
    (max_t_u32 (clk_stop_timeout (bus s)) (prop_clk_stop_timeout (prop s))).

(** [sdw_drv_probe].  [None] stands for undefined behaviour: the table
    scan overran, or [drv->probe] is a NULL pointer. *)
Definition sdw_drv_probe (drv : sdw_driver) (slave : sdw_slave)
    : option (outcome sdw_slave) :=
  match fst (sdw_get_device_id slave drv) with
  | IdOverrun => None
  | IdNull => Some (Outcome (- ENODEV) slave [])
  | IdFound _ entry =>
      let slave := set_ops slave (drv_ops drv) in
      let ret := dev_pm_domain_attach (dev_of_slave slave) false in
      let log := [EvPmAttach false ret] in
      if truthy ret then Some (Outcome ret slave log)
      else
        match probe drv with
        | None => None
        | Some drv_probe =>
            let (ret, s) := drv_probe (st slave) entry in
            let slave := set_st slave s in
            let log := log ++ [EvDrvProbe ret] in
            if truthy ret then
              Some (Outcome ret slave
                      (log ++ [EvDevErr (name drv) ret; EvPmDetach false]))
            else
              let (slave, rp_log) := probe_read_prop slave in
              let log := log ++ rp_log in
              let s := probe_clk_stop_timeout (st slave) in
              let s := set_probed s true in
              let s := set_probe_complete s (complete (probe_complete s)) in
              Some (Outcome 0 (set_st slave s) (log ++ [EvComplete]))
        end
  end.

(** [sdw_drv_remove]. *)
Definition sdw_drv_remove (drv : sdw_driver) (slave : sdw_slave)
    : outcome sdw_slave :=
  let '(ret, slave, log) :=
    match remove drv with
    | Some drv_remove =>
        let (r, s) := drv_remove (st slave) in
        (r, set_st slave s, [EvDrvRemove r])
    | None => (0, slave, [])
    end in
  Outcome ret slave (log ++ [EvPmDetach false]).

(** [sdw_drv_shutdown]. *)
Definition sdw_drv_shutdown (drv : sdw_driver) (slave : sdw_slave)
    : sdw_slave * list event :=
  match shutdown drv with
  | Some drv_shutdown => (set_st slave (drv_shutdown (st slave)), [EvDrvShutdown])
  | None => (slave, [])
  end.

(** [__sdw_register_driver]. *)
Definition __sdw_register_driver (drv : sdw_driver) (owner : option string)
    : outcome sdw_driver :=
  let with_driver (d : device_driver) :=
    mk_driver (name drv) (probe drv) (remove drv) (shutdown drv)
              (id_table drv) (drv_ops drv) d in
  let d := driver drv in
  let d := mk_device_driver (driver_name d) (Some sdw_bus_type)
             (driver_owner d) (driver_probe d) (driver_remove d)
             (driver_shutdown d) in
  match probe drv with
  | None => Outcome (- EINVAL) (with_driver d) [EvPrErr (name drv)]
  | Some _ =>
      let d := mk_device_driver (driver_name d) (driver_bus d) owner
                 (Some cb_sdw_drv_probe)
                 (match remove drv with
                  | Some _ => Some cb_sdw_drv_remove
                  | None => driver_remove d
                  end)
                 (match shutdown drv with
                  | Some _ => Some cb_sdw_drv_shutdown
                  | None => driver_shutdown d
                  end) in
      let ret := driver_register d in
      Outcome ret (with_driver d) [EvDriverRegister d ret]
  end.

(** [sdw_unregister_driver]. *)
Definition sdw_unregister_driver (drv : sdw_driver) : list event :=
  [EvDriverUnregister (driver drv)].

(** [sdw_master_drv_probe].  [None]: [mdrv->probe] is a NULL pointer. *)
Definition sdw_master_drv_probe (mdrv : sdw_master_driver)
    (md : sdw_master_device) : option (outcome sdw_master_device) :=
  let ret := dev_pm_domain_attach (dev_of_master md) false in
  let log := [EvPmAttach false ret] in
  if truthy ret then Some (Outcome ret md log)
  else
    match m_probe mdrv with
    | None => None
    | Some drv_probe =>
        let (ret, md) := drv_probe md (pdata md) in
        let log := log ++ [EvDrvProbe ret] in
        if truthy ret then
          Some (Outcome ret md
                  (log ++ [EvDevErr (driver_name (m_driver mdrv)) ret;
                           EvPmDetach false]))
        else Some (Outcome 0 md log)
    end.

(** [sdw_master_drv_remove]. *)
Definition sdw_master_drv_remove (mdrv : sdw_master_driver)
    (md : sdw_master_device) : outcome sdw_master_device :=
  let '(ret, md, log) :=
    match m_remove mdrv with
    | Some drv_remove =>
        let (r, md') := drv_remove md in
        (r, md', [EvDrvRemove r])
    | None => (0, md, [])
    end in
  Outcome ret md (log ++ [EvPmDetach false]).

(** [sdw_master_drv_shutdown]. *)
Definition sdw_master_drv_shutdown (mdrv : sdw_master_driver)
    (md : sdw_master_device) : sdw_master_device * list event :=
  match m_shutdown mdrv with
  | Some drv_shutdown => (drv_shutdown md, [EvDrvShutdown])
  | None => (md, [])
  end.

(** [__sdw_register_master_driver]. *)
Definition __sdw_register_master_driver (mdrv : sdw_master_driver)
    (owner : option string) : outcome sdw_master_driver :=
  let with_driver (d : device_driver) :=
    mk_master_driver (m_probe mdrv) (m_remove mdrv) (m_shutdown mdrv) d in
  let d := m_driver mdrv in
  let d := mk_device_driver (driver_name d) (Some sdw_bus_type)
             (driver_owner d) (driver_probe d) (driver_remove d)
             (driver_shutdown d) in
  match m_probe mdrv with
  | None => Outcome (- EINVAL) (with_driver d) [EvPrErr (driver_name d)]
  | Some _ =>
      let d := mk_device_driver (driver_name d) (driver_bus d) owner
                 (Some cb_sdw_master_drv_probe)
                 (match m_remove mdrv with
                  | Some _ => Some cb_sdw_master_drv_remove
                  | None => driver_remove d
                  end)
                 (match m_shutdown mdrv with
                  | Some _ => Some cb_sdw_master_drv_shutdown
                  | None => driver_shutdown d
                  end) in
      let ret := driver_register d in
      Outcome ret (with_driver d) [EvDriverRegister d ret]
  end.

(** [sdw_unregister_master_driver]. *)
Definition sdw_unregister_master_driver (mdrv : sdw_master_driver)
    : list event :=
  [EvDriverUnregister (m_driver mdrv)].

End BusType.

(** ** The controller device of master.c *)

(** A pointer as [IS_ERR_OR_NULL] tells them apart: NULL, an errno
    folded in by [ERR_PTR], or the address of an object. *)
Inductive pointer (A : Type) :=
| ptr_null
| ptr_err (errno : Z)
| ptr_to (a : A).
Arguments ptr_null {A}.
Arguments ptr_err {A} _.
Arguments ptr_to {A} _.


(** The callbacks of [struct sdw_master_driver] that master.c calls,
    beside the record the bus code uses. *)
Record sdw_master_link_driver := mk_master_link_driver {
  link_driver : sdw_master_driver;
  m_startup : option (sdw_master_device -> Z * sdw_master_device);
  m_process_wake_event : option (sdw_master_device -> Z * sdw_master_device)
}.

(** The parent [struct device], of which only [dma_mask] is read. *)
Record parent_device := mk_parent_device {
  parent_dma_mask : Z   (* u64 * *)
}.

Inductive device_type := sdw_master_type.

(** The [struct device] embedded in a controller ([md->dev]).
    [dev_driver] is the driver the registry has bound, NULL before. *)
Record struct_device := mk_struct_device {
  dev_parent : option parent_device;
  dev_fwnode : Z;   (* struct fwnode_handle * *)
  dev_bus : option bus_type;
  dev_type : option device_type;
  dev_dma_mask : Z;
  dev_name : string;
  dev_driver : option sdw_master_link_driver
}.

(** A controller object: the fields of [struct sdw_master_device] and
    its embedded [dev]. *)
Definition master_object : Type := sdw_master_device * struct_device.

(** Calls master.c makes to the allocator, the registry and the
    driver. *)
Inductive master_event :=
| MEvKzalloc (ok : bool)
| MEvDeviceRegister (dev : struct_device) (ret : Z)
| MEvDevErr (ret : Z)
| MEvPutDevice
| MEvStartup (ret : Z)
| MEvWakeEvent (ret : Z)
| MEvKfree.



Definition is_driver_call (e : master_event) : bool :=
  match e with MEvStartup _ | MEvWakeEvent _ => true | _ => false end.


(** The [%d] conversion of an [int] argument. *)
Definition fmt_d (v : Z) : string := NilZero.string_of_int (Z.to_int v).

Section Master.

(** Whether [kzalloc] finds memory, and what [device_register] answers. *)
Variable kzalloc_ok : bool.
Variable device_register : struct_device -> Z.

(** [sdw_master_device_release]. *)
Definition sdw_master_device_release (md : master_object) : list master_event :=
  [MEvKfree].

(** [sdw_master_device_add].  [None] stands for undefined behaviour:
    [md->dev.parent->dma_mask] read through a NULL [parent]. *)
Definition sdw_master_device_add (name : string)
    (parent : option parent_device) (fwnode : Z) (link : Z) (pd : Z)
    : option (pointer master_object * list master_event) :=
  if negb kzalloc_ok then Some (ptr_err (- ENOMEM), [MEvKzalloc false])
  else
    let md := mk_master_device name link pd init_completion in
    match parent with
    | None => None
    | Some p =>
        let dev :=
          mk_struct_device parent fwnode (Some sdw_bus_type)
            (Some sdw_master_type) (parent_dma_mask p)
            ("sdw-master-" ++ fmt_d (link_id md))%string None in
        let ret := device_register dev in
        if truthy ret then
          Some (ptr_err (- ENOMEM),
                [MEvKzalloc true; MEvDeviceRegister dev ret; MEvDevErr ret;
                 MEvPutDevice])
        else
          Some (ptr_to (md, dev), [MEvKzalloc true; MEvDeviceRegister dev ret])
    end.

End Master.

(** [sdw_master_device_startup].  The NULL test on [mdrv] is the test on
    [dev->driver], the embedded [driver] being the first member of the
    controller driver. *)
Definition sdw_master_device_startup (p : pointer master_object)
    : Z * pointer master_object * list master_event :=
  match p with
  | ptr_to (md, dev) =>
      match dev_driver dev with
      | Some mdrv =>
          match m_startup mdrv with
          | Some startup =>
              let (ret, md') := startup md in
              (ret, ptr_to (md', dev), [MEvStartup ret])
          | None => (0, p, [])
          end
      | None => (0, p, [])
      end
  | _ => (- EINVAL, p, [])
  end.

(** [sdw_master_device_process_wake_event]. *)
Definition sdw_master_device_process_wake_event (p : pointer master_object)
    : Z * pointer master_object * list master_event :=
  match p with
  | ptr_to (md, dev) =>
      match dev_driver dev with
      | Some mdrv =>
          match m_process_wake_event mdrv with
          | Some wake =>
              let (ret, md') := wake md in
              (ret, ptr_to (md', dev), [MEvWakeEvent ret])
          | None => (0, p, [])
          end
      | None => (0, p, [])
      end
  | _ => (- EINVAL, p, [])
  end.

(** ** Several peripherals on one bus *)

Definition is_pm_attach_ok (e : event) : bool :=
  match e with EvPmAttach _ r => r =? 0 | _ => false end.

Definition is_read_prop (e : event) : bool :=
  match e with EvReadProp => true | _ => false end.

(** [slave] seen with the bus instance [b] behind its [bus] pointer. *)
Definition on_bus (b : sdw_bus) (slave : sdw_slave) : sdw_slave :=
  set_st slave
    (mk_slave_state b (prop (st slave)) (probed (st slave))
       (probe_complete (st slave))).

(** The peripherals of one bus probed one after the other, each seeing
    the bus instance as the previous probe left it; the result is the
    bus instance at the end. *)
Fixpoint probe_sequence (attach : device -> bool -> Z) (drv : sdw_driver)
    (b : sdw_bus) (slaves : list sdw_slave) : option sdw_bus :=
  match slaves with
  | [] => Some b
  | slave :: rest =>
      match sdw_drv_probe attach drv (on_bus b slave) with
      | Some o => probe_sequence attach drv (bus (st (dev_after o))) rest
      | None => None
      end
  end.

(** A driver callback that leaves the bus instance and the property
    bag of the device as they are. *)
Definition keeps_timeouts (f : slave_state -> slave_state) : Prop :=
  forall s, bus (f s) = bus s /\ prop (f s) = prop s.

(** All the callbacks a probe of [drv] runs keep the timeouts, and its
    probe callback succeeds. *)
Definition quiet_driver (drv : sdw_driver) : Prop :=
  (exists cb,
      probe drv = Some cb /\
      forall e, (forall s, fst (cb s e) = 0) /\
                keeps_timeouts (fun s => snd (cb s e))) /\
  (forall o rp,
      drv_ops drv = Some o -> read_prop o = Some rp ->
      keeps_timeouts (fun s => snd (rp s))).

(** The clock-stop timeout a peripheral ends up with: 300 when it
    declares none. *)
Definition effective_timeout (t : Z) : Z := if t =? 0 then 300 else t.

(** ** Notions the statements use *)

(** The identity of [slave] and the table entry [e] are equal field by
    field. *)
Definition same_id (slave : sdw_slave) (e : sdw_device_id) : Prop :=
  mfg_id e = slave_mfg_id (id slave) /\ part_id e = slave_part_id (id slave).

(** The device as the peripheral probe hands it to the power domain and
    to the driver: the driver's capability set is installed. *)
Definition bound_to (drv : sdw_driver) (slave : sdw_slave) : sdw_slave :=
  set_ops slave (drv_ops drv).

(** The device once the driver's probe left the state [s1] and
    [read_prop], if the driver has one, ran on it. *)
Definition after_callbacks (drv : sdw_driver) (slave : sdw_slave)
    (s1 : slave_state) : sdw_slave :=
  fst (probe_read_prop (set_st (bound_to drv slave) s1)).

(** The C string a Rocq string denotes: what precedes its first NUL. *)
Fixpoint c_str (s : string) : string :=
  match s with
  | EmptyString => EmptyString
  | String c r => if Ascii.eqb c NUL then EmptyString else String c (c_str r)
  end.

(** No NUL among the characters of [s]. *)
Fixpoint nul_free (s : string) : Prop :=
  match s with
  | EmptyString => True
  | String c r => c <> NUL /\ nul_free r
  end.

(** Value of a string of upper-case hexadecimal digits; lower-case
    letters and any other character are refused. *)
Definition upper_hex_value (c : ascii) : option Z :=
  let n := Z.of_N (N_of_ascii c) in
  if (48 <=? n) && (n <=? 57) then Some (n - 48)
  else if (65 <=? n) && (n <=? 70) then Some (n - 55)
  else None.

Fixpoint parse_upper_hex (acc : Z) (s : string) : option Z :=
  match s with
  | EmptyString => Some acc
  | String c r =>
      match upper_hex_value c with
      | Some d => parse_upper_hex (16 * acc + d) r
      | None => None
      end
  end.

(** ** Sample devices and drivers *)

Definition sample_slave (mfg part timeout bus_timeout : Z) : sdw_slave :=
  mk_slave (mk_slave_id mfg part) None
    (mk_slave_state (mk_bus bus_timeout) (mk_prop timeout) false
       init_completion).

(** A peripheral driver with the given table and probe callback. *)
Definition sample_driver (tbl : option (list sdw_device_id))
    (p : option (slave_state -> sdw_device_id -> Z * slave_state))
    (r : option slave_cb) : sdw_driver :=
  mk_driver "codec" p r None tbl None
    (mk_device_driver "codec" None None None None None).

Definition sample_table : list sdw_device_id :=
  [mk_device_id 0x025D 0x0700; mk_device_id 0x1234 0x5678;
   mk_device_id 0 0; mk_device_id 0x1234 0x9999].

Definition sample_master (nm : string) : sdw_master_device :=
  mk_master_device nm 0 0 init_completion.

Definition sample_master_driver (nm : string)
    (p : option (sdw_master_device -> Z -> Z * sdw_master_device))
    (r : option (sdw_master_device -> Z * sdw_master_device))
    : sdw_master_driver :=
  mk_master_driver p r None (mk_device_driver nm None None None None None).

(** Driver callbacks that return [r] and leave the device as it is. *)
Definition probe_returning (r : Z) : slave_state -> sdw_device_id -> Z * slave_state :=
  fun s _ => (r, s).

Definition m_probe_returning (r : Z)
    : sdw_master_device -> Z -> Z * sdw_master_device :=
  fun md _ => (r, md).

Definition remove_returning (r : Z) : slave_cb := fun s => (r, s).

Definition m_remove_returning (r : Z)
    : sdw_master_device -> Z * sdw_master_device :=
  fun md => (r, md).

(** ** The match predicate: peripherals *)

Section PeripheralMatch.

Variable slave : sdw_slave.

Lemma same_id_eqb (e : sdw_device_id) :
  (slave_mfg_id (id slave) =? mfg_id e) &&
  (slave_part_id (id slave) =? part_id e) = true <-> same_id slave e.
Proof.
  unfold same_id. rewrite andb_true_iff, !Z.eqb_eq. intuition congruence.
Qed.

(** What the loop computes on a table whose first zero manufacturer id
    is that of [sentinel]: the first entry of [pre] with the device's
    identity, or NULL once the sentinel has been read. *)
Lemma scan_id_table_cases (pre post : list sdw_device_id)
    (sentinel : sdw_device_id) :
  Forall (fun e => mfg_id e <> 0) pre ->
  mfg_id sentinel = 0 ->
  forall idx,
    (exists i e,
        scan_id_table slave (pre ++ sentinel :: post) idx
          = (IdFound (idx + i) e, S i) /\
        nth_error pre i = Some e /\ same_id slave e /\
        forall j e', (j < i)%nat -> nth_error pre j = Some e' ->
                     ~ same_id slave e')
    \/ (scan_id_table slave (pre ++ sentinel :: post) idx
          = (IdNull, S (List.length pre)) /\
        forall e, In e pre -> ~ same_id slave e).
Proof.
  intros Hpre Hs. induction Hpre as [|e pre He Hpre IH]; intros idx.
  - right. simpl. unfold truthy. rewrite Hs. simpl. split; [reflexivity|].
    intros e [].
  - simpl. unfold truthy. destruct (Z.eqb_spec (mfg_id e) 0) as [E|_]; [contradiction|].
    simpl negb. cbv iota.
    destruct ((slave_mfg_id (id slave) =? mfg_id e) &&
              (slave_part_id (id slave) =? part_id e)) eqn:Heq.
    + left. exists O, e. rewrite Nat.add_0_r. repeat split.
      * apply same_id_eqb in Heq. apply Heq.
      * apply same_id_eqb in Heq. apply Heq.
      * intros j e' Hj. lia.
    + assert (Hne : ~ same_id slave e).
      { intro H. apply same_id_eqb in H. congruence. }
      destruct (IH (S idx)) as [(i & e1 & Hscan & Hnth & Hsame & Hfirst) | (Hscan & Hnone)].
      * left. exists (S i), e1. rewrite Hscan.
        replace (idx + S i)%nat with (S idx + i)%nat by lia.
        repeat split; try assumption; try apply Hsame.
        intros [|j] e' Hj Hnth'; simpl in Hnth'.
        -- injection Hnth' as <-. exact Hne.
        -- apply (Hfirst j e'); [lia | assumption].
      * right. rewrite Hscan. split; [reflexivity|].
        intros e' [<- | Hin]; [exact Hne | apply Hnone; assumption].
Qed.

End PeripheralMatch.

(** The controller branch: [strncmp] over the length of the first
    string is zero exactly when that string is a prefix of the second. *)
Lemma strncmp_strlen_prefix (s t : string) :
  strncmp s t (strlen s) = 0 <->
  exists rest, c_str t = (c_str s ++ rest)%string.
Proof.
  revert t. induction s as [|c r IH]; intros t.
  - simpl. split; [intros _; exists (c_str t); reflexivity | reflexivity].
  - simpl strlen. simpl c_str.
    destruct (Ascii.eqb_spec c NUL) as [Hc|Hc].
    + simpl. split; [intros _; exists (c_str t); reflexivity | reflexivity].
    + cbn [strncmp deref next].
      destruct t as [|c2 t']; cbn [deref next c_str].
      * destruct (Ascii.eqb_spec c NUL) as [|_]; [contradiction|]. simpl negb. cbv iota.
        split.
        -- destruct (N_of_ascii c <? N_of_ascii NUL)%N; discriminate.
        -- intros [rest H]. discriminate.
      * destruct (Ascii.eqb_spec c c2) as [<-|Hcc]; simpl negb; cbv iota.
        -- destruct (Ascii.eqb_spec c NUL) as [|_]; [contradiction|].
           rewrite IH. split; intros [rest H]; exists rest.
           ++ simpl. rewrite H. reflexivity.
           ++ simpl in H. injection H as H. exact H.
        -- split.
           ++ destruct (N_of_ascii c <? N_of_ascii c2)%N; discriminate.
           ++ intros [rest H]. destruct (Ascii.eqb c2 NUL); simpl in H;
                [discriminate | injection H as H _; congruence].
  Qed.

Lemma c_str_nul_free (s : string) : nul_free s -> c_str s = s.
Proof.
  induction s as [|c r IH]; simpl; [reflexivity|].
  intros [Hc Hr]. destruct (Ascii.eqb_spec c NUL); [contradiction|].
  rewrite IH by assumption. reflexivity.
Qed.

(** ** Properties of the match predicate *)

(** C1.  On a driver whose identity table holds the entries [pre], all
    with a non-zero manufacturer id, then a zero-manufacturer-id
    sentinel, then anything: the match is 1 exactly when an entry of
    [pre] has the device's manufacturer and part id, and 0 otherwise;
    the lookup returns the first such entry, NULL when there is none,
    and reads nothing behind the sentinel. *)
Theorem sdw_bus_match_peripheral :
  forall (slave : sdw_slave) (drv : sdw_driver)
         (pre post : list sdw_device_id) (sentinel : sdw_device_id),
    id_table drv = Some (pre ++ sentinel :: post) ->
    Forall (fun e => mfg_id e <> 0) pre ->
    mfg_id sentinel = 0 ->
    let m := sdw_bus_match (dev_of_slave slave) (drv_of_sdw drv) in
    let r := sdw_get_device_id slave drv in
    (m = Some 1 <-> exists e, In e pre /\ same_id slave e) /\
    (m = Some 0 <-> forall e, In e pre -> ~ same_id slave e) /\
    (forall i e,
        fst r = IdFound i e <->
        nth_error pre i = Some e /\ same_id slave e /\
        forall j e', (j < i)%nat -> nth_error pre j = Some e' ->
                     ~ same_id slave e') /\
    (fst r = IdNull <-> forall e, In e pre -> ~ same_id slave e) /\
    (snd r <= S (List.length pre))%nat.
Proof.
  intros slave drv pre post sentinel Htbl Hpre Hs m r.
  subst m r. unfold sdw_bus_match, sdw_get_device_id. rewrite Htbl.
  destruct (scan_id_table_cases slave pre post sentinel Hpre Hs O)
    as [(i & e & Hscan & Hnth & Hsame & Hfirst) | (Hscan & Hnone)];
    rewrite Hscan; cbn [fst snd ptr_to_bool Nat.add].
  - assert (Hin : In e pre) by (eapply nth_error_In; eassumption).
    split; [|split; [|split; [|split]]].
    + split; [intros _; exists e; auto | reflexivity].
    + split; [discriminate | intros H; exfalso; exact (H e Hin Hsame)].
    + intros i' e'. split.
      * intros H. injection H as <- <-. auto.
      * intros (Hnth' & Hsame' & Hfirst').
        destruct (Nat.lt_trichotomy i i') as [Hlt | [<- | Hgt]].
        -- exfalso. exact (Hfirst' i e Hlt Hnth Hsame).
        -- congruence.
        -- exfalso. exact (Hfirst i' e' Hgt Hnth' Hsame').
    + split; [discriminate | intros H; exfalso; exact (H e Hin Hsame)].
    + assert ((i < List.length pre)%nat) by (apply nth_error_Some; congruence).
      lia.
  - split; [|split; [|split; [|split]]].
    + split; [discriminate|].
      intros (e & Hin & Hsame). exfalso. exact (Hnone e Hin Hsame).
    + split; [intros _; assumption | reflexivity].
    + intros i e. split; [discriminate|].
      intros (Hnth & Hsame & _). exfalso.
      exact (Hnone e (nth_error_In _ _ Hnth) Hsame).
    + split; [intros _; assumption | reflexivity].
    + lia.
Qed.

(** C1 at work: the second entry of the sample table matches, the one
    behind the sentinel does not. *)
Lemma sdw_bus_match_peripheral_witness :
  sdw_bus_match (dev_of_slave (sample_slave 0x1234 0x5678 0 0))
    (drv_of_sdw (sample_driver (Some sample_table) None None)) = Some 1
  /\ sdw_bus_match (dev_of_slave (sample_slave 0x1234 0x9999 0 0))
    (drv_of_sdw (sample_driver (Some sample_table) None None)) = Some 0.
Proof.
  split.
  - apply (sdw_bus_match_peripheral (sample_slave 0x1234 0x5678 0 0)
             (sample_driver (Some sample_table) None None)
             [mk_device_id 0x025D 0x0700; mk_device_id 0x1234 0x5678]
             [mk_device_id 0x1234 0x9999] (mk_device_id 0 0)).
    + reflexivity.
    + repeat constructor; simpl; discriminate.
    + reflexivity.
    + exists (mk_device_id 0x1234 0x5678). split.
      * simpl. auto.
      * split; reflexivity.
  - apply (sdw_bus_match_peripheral (sample_slave 0x1234 0x9999 0 0)
             (sample_driver (Some sample_table) None None)
             [mk_device_id 0x025D 0x0700; mk_device_id 0x1234 0x5678]
             [mk_device_id 0x1234 0x9999] (mk_device_id 0 0)).
    + reflexivity.
    + repeat constructor; simpl; discriminate.
    + reflexivity.
    + intros e [<- | [<- | []]] [H1 H2]; simpl in *; discriminate.
Defined.

(** C10.  With a NULL identity table the lookup is NULL after reading no
    entry, and the match is 0, whatever the device. *)
Theorem sdw_bus_match_null_table :
  forall (slave : sdw_slave) (drv : sdw_driver),
    id_table drv = None ->
    sdw_get_device_id slave drv = (IdNull, O) /\
    sdw_bus_match (dev_of_slave slave) (drv_of_sdw drv) = Some 0.
Proof.
  intros slave drv H. unfold sdw_bus_match, sdw_get_device_id.
  rewrite H. split; reflexivity.
Qed.

Lemma sdw_bus_match_null_table_witness :
  sdw_get_device_id (sample_slave 0x1234 0x5678 0 0)
    (sample_driver None None None) = (IdNull, O) /\
  sdw_bus_match (dev_of_slave (sample_slave 0x1234 0x5678 0 0))
    (drv_of_sdw (sample_driver None None None)) = Some 0.
Proof.
  apply (sdw_bus_match_null_table (sample_slave 0x1234 0x5678 0 0)
           (sample_driver None None None)).
  reflexivity.
Defined.

(** C9.  A controller matches a controller driver (the result is 1)
    exactly when its name is a prefix of the driver's name, and the
    result is 0 otherwise; for names held without a NUL inside, the
    driver's name is the device's name followed by some rest; "link-0"
    matches "link-0-ctrl". *)
Theorem sdw_bus_match_controller :
  (forall (md : sdw_master_device) (mdrv : sdw_master_driver),
      let m := sdw_bus_match (dev_of_master md) (drv_of_master mdrv) in
      let prefixed :=
        exists rest,
          c_str (driver_name (m_driver mdrv))
          = (c_str (master_name md) ++ rest)%string in
      (m = Some 1 <-> prefixed) /\ (m = Some 0 <-> ~ prefixed)) /\
  (forall (md : sdw_master_device) (mdrv : sdw_master_driver),
      nul_free (master_name md) ->
      nul_free (driver_name (m_driver mdrv)) ->
      (sdw_bus_match (dev_of_master md) (drv_of_master mdrv) = Some 1 <->
       exists rest,
         driver_name (m_driver mdrv) = (master_name md ++ rest)%string)) /\
  sdw_bus_match (dev_of_master (sample_master "link-0"))
    (drv_of_master (sample_master_driver "link-0-ctrl" None None)) = Some 1.
Proof.
  assert (Hgen : forall md mdrv,
             sdw_bus_match (dev_of_master md) (drv_of_master mdrv) = Some 1 <->
             exists rest,
               c_str (driver_name (m_driver mdrv))
               = (c_str (master_name md) ++ rest)%string).
  { intros md mdrv. unfold sdw_bus_match, lnot.
    rewrite <- strncmp_strlen_prefix.
    destruct (Z.eqb_spec (strncmp (master_name md) (driver_name (m_driver mdrv))
                            (strlen (master_name md))) 0) as [E|E].
    - split; [intros _; exact E | reflexivity].
    - split; [discriminate | contradiction]. }
  split; [|split; [|reflexivity]].
  - intros md mdrv m prefixed. subst m prefixed. split; [apply Hgen|].
    rewrite <- Hgen. unfold sdw_bus_match, lnot.
    destruct (strncmp (master_name md) (driver_name (m_driver mdrv))
                (strlen (master_name md)) =? 0).
    + split; [discriminate | intros H; exfalso; apply H; reflexivity].
    + split; [intros _; discriminate | reflexivity].
  - intros md mdrv Hd Hr. rewrite Hgen.
    rewrite (c_str_nul_free _ Hd), (c_str_nul_free _ Hr). reflexivity.
Qed.

(** C9 on the scenario: "link-0-ctrl" is "link-0" followed by "-ctrl". *)
Lemma sdw_bus_match_controller_witness :
  sdw_bus_match (dev_of_master (sample_master "link-0"))
    (drv_of_master (sample_master_driver "link-0-ctrl" None None)) = Some 1.
Proof.
  apply (proj1 (proj2 sdw_bus_match_controller) (sample_master "link-0")
           (sample_master_driver "link-0-ctrl" None None)).
  - simpl. repeat split; discriminate.
  - simpl. repeat split; discriminate.
  - exists "-ctrl". reflexivity.
Defined.

(** ** The modalias formatter *)

Lemma upper_hex_value_digit (d : Z) :
  0 <= d < 16 -> upper_hex_value (hex_digit_upper d) = Some d.
Proof.
  intros H.
  assert (Hd : d = 0 \/ d = 1 \/ d = 2 \/ d = 3 \/ d = 4 \/ d = 5 \/ d = 6 \/
               d = 7 \/ d = 8 \/ d = 9 \/ d = 10 \/ d = 11 \/ d = 12 \/
               d = 13 \/ d = 14 \/ d = 15) by lia.
  repeat (destruct Hd as [-> | Hd]; [reflexivity|]). subst d. reflexivity.
Qed.

(** A 16-bit value is printed by [%04X] as its four hexadecimal digits,
    most significant first. *)
Lemma fmt_04X_u16 (v : Z) :
  0 <= v < 65536 ->
  fmt_04X v =
  String (hex_digit_upper (v / 4096))
    (String (hex_digit_upper (v / 256 mod 16))
       (String (hex_digit_upper (v / 16 mod 16))
          (String (hex_digit_upper (v mod 16)) ""))).
Proof.
  intros Hv. unfold fmt_04X.
  rewrite (Z.mod_small v (2 ^ 32)) by lia.
  replace (v / 256) with (v / 16 / 16)
    by (rewrite Z.div_div; [reflexivity | lia | lia]).
  replace (v / 4096) with (v / 16 / 16 / 16)
    by (rewrite !Z.div_div; [reflexivity | lia | lia | lia | lia]).
  set (q1 := v / 16). set (q2 := q1 / 16). set (q3 := q2 / 16).
  assert (Hq1 : 0 <= q1 < 4096) by (subst q1; Z.div_mod_to_equations; lia).
  assert (Hq2 : 0 <= q2 < 256) by (subst q2; Z.div_mod_to_equations; lia).
  assert (Hq3 : 0 <= q3 < 16) by (subst q3; Z.div_mod_to_equations; lia).
  assert (Hq4 : q3 / 16 = 0) by (apply Z.div_small; lia).
  cbn [hex_upper]. fold q1. fold q2. fold q3.
  destruct (Z.eqb_spec q1 0) as [E1|E1].
  - assert (E2 : q2 = 0) by (subst q2; rewrite E1; reflexivity).
    assert (E3 : q3 = 0) by (subst q3; rewrite E2; reflexivity).
    rewrite E3, E2, E1. reflexivity.
  - destruct (Z.eqb_spec q2 0) as [E2|E2].
    + assert (E3 : q3 = 0) by (subst q3; rewrite E2; reflexivity).
      rewrite E3, E2. reflexivity.
    + destruct (Z.eqb_spec q3 0) as [E3|E3].
      * rewrite E3. reflexivity.
      * rewrite Hq4. rewrite (Z.mod_small q3 16) by lia. reflexivity.
Qed.

Lemma fmt_04X_length (v : Z) :
  0 <= v < 65536 -> String.length (fmt_04X v) = 4%nat.
Proof. intros H. rewrite fmt_04X_u16 by assumption. reflexivity. Qed.

Lemma fmt_04X_parse (v : Z) :
  0 <= v < 65536 -> parse_upper_hex 0 (fmt_04X v) = Some v.
Proof.
  intros H. rewrite fmt_04X_u16 by assumption. cbn [parse_upper_hex].
  rewrite !upper_hex_value_digit by (Z.div_mod_to_equations; lia).
  f_equal. Z.div_mod_to_equations. lia.
Qed.

Lemma substring_all (s : string) (n : nat) :
  (String.length s <= n)%nat -> substring 0 n s = s.
Proof.
  revert n. induction s as [|c r IH]; intros [|n] H; simpl in *;
    try reflexivity; try lia.
  rewrite IH by lia. reflexivity.
Qed.

(** C4, as the code has it.  For 16-bit identifiers and a buffer of at
    least 16 bytes, the formatter writes "sdw:m", the manufacturer id as
    four upper-case hexadecimal digits, "p", the part id as four
    upper-case hexadecimal digits, and then a line feed: 15 characters,
    which is also the value returned. *)
Theorem sdw_slave_modalias_format :
  forall (slave : sdw_slave) (buf : string) (size : nat),
    0 <= slave_mfg_id (id slave) < 65536 ->
    0 <= slave_part_id (id slave) < 65536 ->
    (16 <= size)%nat ->
    exists m p : string,
      sdw_slave_modalias slave buf size
      = (("sdw:m" ++ m ++ "p" ++ p ++ String LF "")%string, 15) /\
      String.length m = 4%nat /\ String.length p = 4%nat /\
      parse_upper_hex 0 m = Some (slave_mfg_id (id slave)) /\
      parse_upper_hex 0 p = Some (slave_part_id (id slave)).
Proof.
  intros slave buf size Hm Hp Hsize.
  exists (fmt_04X (slave_mfg_id (id slave))),
         (fmt_04X (slave_part_id (id slave))).
  split; [|auto using fmt_04X_length, fmt_04X_parse].
  unfold sdw_slave_modalias, snprintf.
  assert (Hlen : String.length
            ("sdw:m" ++ fmt_04X (slave_mfg_id (id slave)) ++ "p" ++
             fmt_04X (slave_part_id (id slave)) ++ String LF "")%string
          = 15%nat).
  { rewrite !fmt_04X_u16 by assumption. reflexivity. }
  rewrite Hlen. destruct size as [|n]; [lia|].
  rewrite substring_all by lia. reflexivity.
Qed.

(** C4 on the device of the scenario, in the 32-byte buffer of
    [sdw_uevent]. *)
Lemma sdw_slave_modalias_format_witness :
  exists m p : string,
    sdw_slave_modalias (sample_slave 0x1234 0x5678 0 0) "" 32
    = (("sdw:m" ++ m ++ "p" ++ p ++ String LF "")%string, 15) /\
    String.length m = 4%nat /\ String.length p = 4%nat /\
    parse_upper_hex 0 m = Some 0x1234 /\
    parse_upper_hex 0 p = Some 0x5678.
Proof.
  apply (sdw_slave_modalias_format (sample_slave 0x1234 0x5678 0 0) "" 32);
    simpl; lia.
Defined.

(** C4 as stated fails: the text written for manufacturer 0x1234 and
    part 0x5678 is not "sdw:m1234p5678" but that string followed by the
    line feed of the format, and the same goes for the controller
    formatter. *)
Lemma sdw_slave_modalias_not_bare :
  fst (sdw_slave_modalias (sample_slave 0x1234 0x5678 0 0) "" 32)
    <> "sdw:m1234p5678" /\
  fst (sdw_slave_modalias (sample_slave 0x1234 0x5678 0 0) "" 32)
    = ("sdw:m1234p5678" ++ String LF "")%string /\
  fst (sdw_master_modalias (sample_master "link-0") "" 32)
    = ("sdw:link-0" ++ String LF "")%string.
Proof.
  split; [|split]; [|reflexivity|reflexivity].
  vm_compute. discriminate.
Qed.

(** The line feed reaches the event variable [sdw_uevent] publishes. *)
Lemma sdw_uevent_modalias_text (add_uevent_var : string -> Z) :
  snd (sdw_uevent add_uevent_var
         (dev_of_slave (sample_slave 0x1234 0x5678 0 0)))
  = [EvUeventVar ("MODALIAS=sdw:m1234p5678" ++ String LF "")%string
       (add_uevent_var ("MODALIAS=sdw:m1234p5678" ++ String LF "")%string)].
Proof. reflexivity. Qed.

(** ** The probe wrappers, path by path *)

Section ProbePaths.

Variable attach : device -> bool -> Z.

Lemma truthy_true (r : Z) : r <> 0 -> truthy r = true.
Proof. intros H. unfold truthy. destruct (Z.eqb_spec r 0); [contradiction | reflexivity]. Qed.

Lemma st_set_ops (slave : sdw_slave) (o : option sdw_slave_ops) :
  st (set_ops slave o) = st slave.
Proof. reflexivity. Qed.

Lemma sdw_drv_probe_no_entry (drv : sdw_driver) (slave : sdw_slave) :
  fst (sdw_get_device_id slave drv) = IdNull ->
  sdw_drv_probe attach drv slave = Some (Outcome (- ENODEV) slave []).
Proof. intros H. unfold sdw_drv_probe. rewrite H. reflexivity. Qed.

Lemma sdw_drv_probe_attach_error (drv : sdw_driver) (slave : sdw_slave)
    (i : nat) (e : sdw_device_id) (r : Z) :
  fst (sdw_get_device_id slave drv) = IdFound i e ->
  attach (dev_of_slave (bound_to drv slave)) false = r ->
  r <> 0 ->
  sdw_drv_probe attach drv slave
  = Some (Outcome r (bound_to drv slave) [EvPmAttach false r]).
Proof.
  intros Hid Hat Hr. unfold sdw_drv_probe. rewrite Hid. cbv zeta.
  fold (bound_to drv slave). rewrite Hat, (truthy_true r Hr). reflexivity.
Qed.

Lemma sdw_drv_probe_callback_error (drv : sdw_driver) (slave : sdw_slave)
    (i : nat) (e : sdw_device_id)
    (cb : slave_state -> sdw_device_id -> Z * slave_state)
    (r : Z) (s1 : slave_state) :
  fst (sdw_get_device_id slave drv) = IdFound i e ->
  attach (dev_of_slave (bound_to drv slave)) false = 0 ->
  probe drv = Some cb ->
  cb (st slave) e = (r, s1) ->
  r <> 0 ->
  sdw_drv_probe attach drv slave
  = Some (Outcome r (set_st (bound_to drv slave) s1)
            [EvPmAttach false 0; EvDrvProbe r; EvDevErr (name drv) r;
             EvPmDetach false]).
Proof.
  intros Hid Hat Hp Hcb Hr. unfold sdw_drv_probe. rewrite Hid. cbv zeta.
  fold (bound_to drv slave). rewrite Hat, Hp. cbn [truthy Z.eqb negb].
  unfold bound_to at 1. rewrite st_set_ops, Hcb.
  rewrite (truthy_true r Hr). reflexivity.
Qed.

Lemma sdw_drv_probe_success (drv : sdw_driver) (slave : sdw_slave)
    (i : nat) (e : sdw_device_id)
    (cb : slave_state -> sdw_device_id -> Z * slave_state)
    (s1 : slave_state) :
  fst (sdw_get_device_id slave drv) = IdFound i e ->
  attach (dev_of_slave (bound_to drv slave)) false = 0 ->
  probe drv = Some cb ->
  cb (st slave) e = (0, s1) ->
  let dev := after_callbacks drv slave s1 in
  let s := set_probed (probe_clk_stop_timeout (st dev)) true in
  sdw_drv_probe attach drv slave
  = Some (Outcome 0
            (set_st dev (set_probe_complete s (complete (probe_complete s))))
            ([EvPmAttach false 0; EvDrvProbe 0] ++
             snd (probe_read_prop (set_st (bound_to drv slave) s1)) ++
             [EvComplete])).
Proof.
  intros Hid Hat Hp Hcb dev s. subst s dev. unfold after_callbacks.
  unfold sdw_drv_probe. rewrite Hid. cbv zeta.
  fold (bound_to drv slave). rewrite Hat, Hp. cbn [truthy Z.eqb negb].
  unfold bound_to at 1. rewrite st_set_ops, Hcb. cbn [truthy Z.eqb negb].
  destruct (probe_read_prop (set_st (bound_to drv slave) s1)) as [dev l].
  cbn [fst snd]. rewrite <- app_assoc. reflexivity.
Qed.

Lemma sdw_master_drv_probe_attach_error (mdrv : sdw_master_driver)
    (md : sdw_master_device) (r : Z) :
  attach (dev_of_master md) false = r ->
  r <> 0 ->
  sdw_master_drv_probe attach mdrv md
  = Some (Outcome r md [EvPmAttach false r]).
Proof.
  intros Hat Hr. unfold sdw_master_drv_probe. cbv zeta.
  rewrite Hat, (truthy_true r Hr). reflexivity.
Qed.

Lemma sdw_master_drv_probe_callback_error (mdrv : sdw_master_driver)
    (md : sdw_master_device)
    (cb : sdw_master_device -> Z -> Z * sdw_master_device)
    (r : Z) (md1 : sdw_master_device) :
  attach (dev_of_master md) false = 0 ->
  m_probe mdrv = Some cb ->
  cb md (pdata md) = (r, md1) ->
  r <> 0 ->
  sdw_master_drv_probe attach mdrv md
  = Some (Outcome r md1
            [EvPmAttach false 0; EvDrvProbe r;
             EvDevErr (driver_name (m_driver mdrv)) r; EvPmDetach false]).
Proof.
  intros Hat Hp Hcb Hr. unfold sdw_master_drv_probe. cbv zeta.
  rewrite Hat, Hp, Hcb. cbn [truthy Z.eqb negb].
  rewrite (truthy_true r Hr). reflexivity.
Qed.

Lemma sdw_master_drv_probe_success (mdrv : sdw_master_driver)
    (md : sdw_master_device)
    (cb : sdw_master_device -> Z -> Z * sdw_master_device)
    (md1 : sdw_master_device) :
  attach (dev_of_master md) false = 0 ->
  m_probe mdrv = Some cb ->
  cb md (pdata md) = (0, md1) ->
  sdw_master_drv_probe attach mdrv md
  = Some (Outcome 0 md1 [EvPmAttach false 0; EvDrvProbe 0]).
Proof.
  intros Hat Hp Hcb. unfold sdw_master_drv_probe. cbv zeta.
  rewrite Hat, Hp, Hcb. reflexivity.
Qed.

End ProbePaths.

(** ** Properties of the probe wrappers *)

(** C5.  When the power-domain attach returns an error, either probe
    wrapper returns that error with the attach as its only call: the
    driver's probe is not invoked, nothing is detached or released, and
    the device state is what it was (for a peripheral, with the
    capability set of the earlier step installed). *)
Theorem probe_attach_failure :
  (forall attach drv slave i e r,
      fst (sdw_get_device_id slave drv) = IdFound i e ->
      attach (dev_of_slave (bound_to drv slave)) false = r ->
      r <> 0 ->
      exists o,
        sdw_drv_probe attach drv slave = Some o /\
        retval o = r /\
        calls o = [EvPmAttach false r] /\
        count is_drv_probe (calls o) = O /\
        count is_complete (calls o) = O /\
        st (dev_after o) = st slave /\
        id (dev_after o) = id slave) /\
  (forall attach mdrv md r,
      attach (dev_of_master md) false = r ->
      r <> 0 ->
      exists o,
        sdw_master_drv_probe attach mdrv md = Some o /\
        retval o = r /\
        calls o = [EvPmAttach false r] /\
        count is_drv_probe (calls o) = O /\
        count is_complete (calls o) = O /\
        dev_after o = md).
Proof.
  split.
  - intros attach drv slave i e r Hid Hat Hr.
    eexists. split.
    + apply (sdw_drv_probe_attach_error attach drv slave i e r Hid Hat Hr).
    + cbn [retval calls dev_after]. repeat split.
  - intros attach mdrv md r Hat Hr.
    eexists. split.
    + apply (sdw_master_drv_probe_attach_error attach mdrv md r Hat Hr).
    + cbn [retval calls dev_after]. repeat split.
Qed.

(** C5 on a peripheral whose power domain answers -5 and on a controller
    whose power domain answers -16. *)
Lemma probe_attach_failure_witness :
  (exists o,
      sdw_drv_probe (fun _ _ => -5)
        (sample_driver (Some sample_table) (Some (probe_returning 0)) None)
        (sample_slave 0x1234 0x5678 0 150) = Some o /\
      retval o = -5 /\ calls o = [EvPmAttach false (-5)] /\
      probed (st (dev_after o)) = false) /\
  (exists o,
      sdw_master_drv_probe (fun _ _ => -16)
        (sample_master_driver "link-0-ctrl" (Some (m_probe_returning 0)) None)
        (sample_master "link-0") = Some o /\
      retval o = -16 /\ calls o = [EvPmAttach false (-16)]).
Proof.
  split.
  - destruct (proj1 probe_attach_failure (fun _ _ => -5)
                (sample_driver (Some sample_table) (Some (probe_returning 0)) None)
                (sample_slave 0x1234 0x5678 0 150)
                1%nat (mk_device_id 0x1234 0x5678) (-5))
      as (o & Ho & Hr & Hc & _ & _ & Hst & _).
    + reflexivity.
    + reflexivity.
    + discriminate.
    + exists o. rewrite Hst. auto.
  - destruct (proj2 probe_attach_failure (fun _ _ => -16)
                (sample_master_driver "link-0-ctrl" (Some (m_probe_returning 0)) None)
                (sample_master "link-0") (-16))
      as (o & Ho & Hr & Hc & _).
    + reflexivity.
    + discriminate.
    + exists o. auto.
Defined.

(** C2.  When the driver's probe callback returns an error [r], either
    probe wrapper returns [r] itself; its calls are the attach, the
    driver's probe, the diagnostic and, last, the power-domain detach;
    the completion is not released and the device is left as the callback
    left it, so a probed flag that is false stays false. *)
Theorem probe_callback_failure :
  (forall attach drv slave i e cb r s1,
      fst (sdw_get_device_id slave drv) = IdFound i e ->
      attach (dev_of_slave (bound_to drv slave)) false = 0 ->
      probe drv = Some cb ->
      cb (st slave) e = (r, s1) ->
      r <> 0 ->
      probed s1 = false ->
      exists o,
        sdw_drv_probe attach drv slave = Some o /\
        retval o = r /\
        calls o = [EvPmAttach false 0; EvDrvProbe r; EvDevErr (name drv) r;
                   EvPmDetach false] /\
        last (calls o) EvComplete = EvPmDetach false /\
        count is_pm_detach (calls o) = 1%nat /\
        count is_complete (calls o) = O /\
        probed (st (dev_after o)) = false /\
        probe_complete (st (dev_after o)) = probe_complete s1) /\
  (forall attach mdrv md cb r md1,
      attach (dev_of_master md) false = 0 ->
      m_probe mdrv = Some cb ->
      cb md (pdata md) = (r, md1) ->
      r <> 0 ->
      exists o,
        sdw_master_drv_probe attach mdrv md = Some o /\
        retval o = r /\
        calls o = [EvPmAttach false 0; EvDrvProbe r;
                   EvDevErr (driver_name (m_driver mdrv)) r;
                   EvPmDetach false] /\
        last (calls o) EvComplete = EvPmDetach false /\
        count is_pm_detach (calls o) = 1%nat /\
        count is_complete (calls o) = O /\
        dev_after o = md1).
Proof.
  split.
  - intros attach drv slave i e cb r s1 Hid Hat Hp Hcb Hr Hpr.
    eexists. split.
    + apply (sdw_drv_probe_callback_error attach drv slave i e cb r s1);
        assumption.
    + cbn [retval calls dev_after]. repeat split. exact Hpr.
  - intros attach mdrv md cb r md1 Hat Hp Hcb Hr.
    eexists. split.
    + apply (sdw_master_drv_probe_callback_error attach mdrv md cb r md1);
        assumption.
    + cbn [retval calls dev_after]. repeat split.
Qed.

(** C2 on a peripheral driver and a controller driver whose probe
    returns -5. *)
Lemma probe_callback_failure_witness :
  (exists o,
      sdw_drv_probe (fun _ _ => 0)
        (sample_driver (Some sample_table) (Some (probe_returning (-5))) None)
        (sample_slave 0x1234 0x5678 0 150) = Some o /\
      retval o = -5 /\
      last (calls o) EvComplete = EvPmDetach false /\
      probed (st (dev_after o)) = false /\
      count is_complete (calls o) = O) /\
  (exists o,
      sdw_master_drv_probe (fun _ _ => 0)
        (sample_master_driver "link-0-ctrl" (Some (m_probe_returning (-5))) None)
        (sample_master "link-0") = Some o /\
      retval o = -5 /\
      last (calls o) EvComplete = EvPmDetach false /\
      count is_complete (calls o) = O).
Proof.
  split.
  - destruct (proj1 probe_callback_failure (fun _ _ => 0)
                (sample_driver (Some sample_table)
                   (Some (probe_returning (-5))) None)
                (sample_slave 0x1234 0x5678 0 150)
                1%nat (mk_device_id 0x1234 0x5678) (probe_returning (-5))
                (-5) (st (sample_slave 0x1234 0x5678 0 150)))
      as (o & Ho & Hr & _ & Hl & _ & Hc & Hp & _).
    + reflexivity.
    + reflexivity.
    + reflexivity.
    + reflexivity.
    + discriminate.
    + reflexivity.
    + exists o. auto.
  - destruct (proj2 probe_callback_failure (fun _ _ => 0)
                (sample_master_driver "link-0-ctrl"
                   (Some (m_probe_returning (-5))) None)
                (sample_master "link-0") (m_probe_returning (-5))
                (-5) (sample_master "link-0"))
      as (o & Ho & Hr & _ & Hl & _ & Hc & _).
    + reflexivity.
    + reflexivity.
    + reflexivity.
    + discriminate.
    + exists o. auto.
Defined.

(** ** Where the completion is released *)

Lemma count_app (p : event -> bool) (l1 l2 : list event) :
  count p (l1 ++ l2) = (count p l1 + count p l2)%nat.
Proof. unfold count. rewrite filter_app, length_app. reflexivity. Qed.

Lemma probe_read_prop_calls (slave : sdw_slave) :
  snd (probe_read_prop slave) = [] \/ snd (probe_read_prop slave) = [EvReadProp].
Proof.
  unfold probe_read_prop. destruct (ops slave) as [o|]; [|left; reflexivity].
  destruct (read_prop o); [right | left]; reflexivity.
Qed.

Lemma probe_read_prop_no_complete (slave : sdw_slave) :
  count is_complete (snd (probe_read_prop slave)) = O.
Proof.
  destruct (probe_read_prop_calls slave) as [-> | ->]; reflexivity.
Qed.

(** The timeout step leaves the bind bookkeeping alone. *)
Lemma probe_clk_stop_timeout_frame (s : slave_state) :
  probed (probe_clk_stop_timeout s) = probed s /\
  probe_complete (probe_clk_stop_timeout s) = probe_complete s.
Proof.
  unfold probe_clk_stop_timeout.
  destruct (prop_clk_stop_timeout (prop s) =? 0); split; reflexivity.
Qed.

(** Every run of the peripheral probe that returns took one of the four
    paths of the wrapper. *)
Lemma sdw_drv_probe_inv (attach : device -> bool -> Z) (drv : sdw_driver)
    (slave : sdw_slave) (o : outcome sdw_slave) :
  sdw_drv_probe attach drv slave = Some o ->
  (fst (sdw_get_device_id slave drv) = IdNull /\
   o = Outcome (- ENODEV) slave [])
  \/ (exists r, r <> 0 /\ o = Outcome r (bound_to drv slave) [EvPmAttach false r])
  \/ (exists cb e r s1,
         probe drv = Some cb /\ cb (st slave) e = (r, s1) /\ r <> 0 /\
         o = Outcome r (set_st (bound_to drv slave) s1)
               [EvPmAttach false 0; EvDrvProbe r; EvDevErr (name drv) r;
                EvPmDetach false])
  \/ (exists cb e s1,
         probe drv = Some cb /\ cb (st slave) e = (0, s1) /\
         retval o = 0 /\
         probed (st (dev_after o)) = true /\
         calls o = [EvPmAttach false 0; EvDrvProbe 0] ++
                   snd (probe_read_prop (set_st (bound_to drv slave) s1)) ++
                   [EvComplete]).
Proof.
  intros Hrun.
  destruct (fst (sdw_get_device_id slave drv)) as [i e| |] eqn:Hid.
  - destruct (Z.eq_dec (attach (dev_of_slave (bound_to drv slave)) false) 0)
      as [Hat|Hat].
    + destruct (probe drv) as [cb|] eqn:Hp.
      * destruct (cb (st slave) e) as [r s1] eqn:Hcb.
        destruct (Z.eq_dec r 0) as [->|Hr].
        -- right; right; right. exists cb, e, s1.
           rewrite (sdw_drv_probe_success attach drv slave i e cb s1 Hid Hat Hp Hcb)
             in Hrun.
           injection Hrun as <-. cbn [retval dev_after calls]. auto.
        -- right; right; left. exists cb, e, r, s1.
           rewrite (sdw_drv_probe_callback_error attach drv slave i e cb r s1
                      Hid Hat Hp Hcb Hr) in Hrun.
           injection Hrun as <-. auto.
      * exfalso. unfold sdw_drv_probe in Hrun. rewrite Hid in Hrun.
        cbv zeta in Hrun. fold (bound_to drv slave) in Hrun.
        rewrite Hat, Hp in Hrun. discriminate.
    + right; left. eexists. split; [exact Hat|].
      rewrite (sdw_drv_probe_attach_error attach drv slave i e _ Hid eq_refl Hat)
        in Hrun.
      injection Hrun as <-. reflexivity.
  - left. rewrite (sdw_drv_probe_no_entry attach drv slave Hid) in Hrun.
    injection Hrun as <-. auto.
  - unfold sdw_drv_probe in Hrun. rewrite Hid in Hrun. discriminate.
Qed.

(** C3, as the code has it.  A peripheral probe whose driver callback
    succeeds returns 0 with the probed flag set and the completion
    released once, as the last call and after the driver's probe; a
    peripheral probe that returns an error releases nothing.  The
    controller probe wrapper never releases a completion: after a
    successful driver probe its calls are the attach and the driver's
    probe, and the device is as the driver left it. *)
Theorem probe_success_completion :
  (forall attach drv slave i e cb s1,
      fst (sdw_get_device_id slave drv) = IdFound i e ->
      attach (dev_of_slave (bound_to drv slave)) false = 0 ->
      probe drv = Some cb ->
      cb (st slave) e = (0, s1) ->
      exists o,
        sdw_drv_probe attach drv slave = Some o /\
        retval o = 0 /\
        probed (st (dev_after o)) = true /\
        count is_complete (calls o) = 1%nat /\
        (exists l, calls o = EvPmAttach false 0 :: EvDrvProbe 0 :: l ++ [EvComplete] /\
                   count is_complete l = O) /\
        done (probe_complete (st (dev_after o)))
        = S (done (probe_complete (st (after_callbacks drv slave s1))))) /\
  (forall attach drv slave o,
      sdw_drv_probe attach drv slave = Some o ->
      (retval o <> 0 -> count is_complete (calls o) = O) /\
      (retval o = 0 ->
       count is_complete (calls o) = 1%nat /\ In (EvDrvProbe 0) (calls o) /\
       probed (st (dev_after o)) = true)) /\
  (forall attach mdrv md o,
      sdw_master_drv_probe attach mdrv md = Some o ->
      count is_complete (calls o) = O) /\
  (forall attach mdrv md cb md1,
      attach (dev_of_master md) false = 0 ->
      m_probe mdrv = Some cb ->
      cb md (pdata md) = (0, md1) ->
      exists o,
        sdw_master_drv_probe attach mdrv md = Some o /\
        retval o = 0 /\
        calls o = [EvPmAttach false 0; EvDrvProbe 0] /\
        dev_after o = md1).
Proof.
  split; [|split; [|split]].
  - intros attach drv slave i e cb s1 Hid Hat Hp Hcb.
    eexists. split; [apply (sdw_drv_probe_success attach drv slave i e cb s1);
                     assumption|].
    cbn [retval calls dev_after]. split; [reflexivity|]. split; [reflexivity|].
    split; [|split].
    + rewrite !count_app, probe_read_prop_no_complete. reflexivity.
    + eexists. split; [reflexivity | apply probe_read_prop_no_complete].
    + cbn [st set_st probe_complete set_probe_complete set_probed complete done].
      rewrite (proj2 (probe_clk_stop_timeout_frame _)). reflexivity.
  - intros attach drv slave o Hrun.
    destruct (sdw_drv_probe_inv attach drv slave o Hrun)
      as [(_ & ->) | [(r & Hr & ->) | [(cb & e & r & s1 & _ & _ & Hr & ->)
         | (cb & e & s1 & _ & _ & Hret & Hpr & Hcalls)]]];
      cbn [retval calls dev_after].
    + split; [reflexivity | discriminate].
    + split; [reflexivity | contradiction].
    + split; [reflexivity | contradiction].
    + split; [congruence|]. intros _. rewrite Hcalls.
      split; [|split; [simpl; auto | exact Hpr]].
      rewrite !count_app, probe_read_prop_no_complete. reflexivity.
  - intros attach mdrv md o. unfold sdw_master_drv_probe. cbv zeta.
    destruct (truthy (attach (dev_of_master md) false)).
    + intros H. injection H as <-. reflexivity.
    + destruct (m_probe mdrv) as [cb|]; [|discriminate].
      destruct (cb md (pdata md)) as [r md1].
      destruct (truthy r); intros H; injection H as <-; reflexivity.
  - intros attach mdrv md cb md1 Hat Hp Hcb.
    eexists. split; [apply (sdw_master_drv_probe_success attach mdrv md cb md1);
                     assumption|].
    cbn [retval calls dev_after]. auto.
Qed.

(** C3 on the sample peripheral and a driver whose probe succeeds. *)
Lemma probe_success_completion_witness :
  exists o,
    sdw_drv_probe (fun _ _ => 0)
      (sample_driver (Some sample_table) (Some (probe_returning 0)) None)
      (sample_slave 0x1234 0x5678 0 150) = Some o /\
    retval o = 0 /\
    probed (st (dev_after o)) = true /\
    count is_complete (calls o) = 1%nat /\
    done (probe_complete (st (dev_after o))) = 1%nat.
Proof.
  destruct (proj1 probe_success_completion (fun _ _ => 0)
              (sample_driver (Some sample_table) (Some (probe_returning 0)) None)
              (sample_slave 0x1234 0x5678 0 150)
              1%nat (mk_device_id 0x1234 0x5678) (probe_returning 0)
              (st (sample_slave 0x1234 0x5678 0 150)))
    as (o & Ho & Hr & Hp & Hc & _ & Hd).
  - reflexivity.
  - reflexivity.
  - reflexivity.
  - reflexivity.
  - exists o. repeat split; assumption.
Defined.

(** C3 as stated fails on the controller variant: a controller probe
    whose driver callback succeeds returns 0 and has released the
    completion zero times, not once. *)
Lemma sdw_master_drv_probe_no_completion :
  exists o,
    sdw_master_drv_probe (fun _ _ => 0)
      (sample_master_driver "link-0-ctrl" (Some (m_probe_returning 0)) None)
      (sample_master "link-0") = Some o /\
    retval o = 0 /\
    calls o = [EvPmAttach false 0; EvDrvProbe 0] /\
    count is_complete (calls o) <> 1%nat /\
    done (md_probe_complete (dev_after o)) = O.
Proof.
  eexists. split; [reflexivity|].
  cbn. repeat split. discriminate.
Qed.

(** C6.  After a successful peripheral probe, with [t] the clock-stop
    timeout the device declares once the driver's callbacks have run and
    [b] the bus-wide timeout at that point (both 32-bit values): the
    device timeout is 300 if [t] is zero and [t] otherwise, and the bus
    timeout is the larger of [b] and that device timeout. *)
Theorem probe_clk_stop_timeout_max :
  forall attach drv slave i e cb s1,
    fst (sdw_get_device_id slave drv) = IdFound i e ->
    attach (dev_of_slave (bound_to drv slave)) false = 0 ->
    probe drv = Some cb ->
    cb (st slave) e = (0, s1) ->
    let t := prop_clk_stop_timeout (prop (st (after_callbacks drv slave s1))) in
    let b := clk_stop_timeout (bus (st (after_callbacks drv slave s1))) in
    0 <= t < 2 ^ 32 ->
    0 <= b < 2 ^ 32 ->
    exists o,
      sdw_drv_probe attach drv slave = Some o /\
      retval o = 0 /\
      prop_clk_stop_timeout (prop (st (dev_after o)))
      = (if t =? 0 then 300 else t) /\
      clk_stop_timeout (bus (st (dev_after o)))
      = Z.max b (prop_clk_stop_timeout (prop (st (dev_after o)))).
Proof.
  intros attach drv slave i e cb s1 Hid Hat Hp Hcb t b Ht Hb.
  eexists. split; [apply (sdw_drv_probe_success attach drv slave i e cb s1);
                   assumption|].
  cbn [retval dev_after st set_st]. split; [reflexivity|].
  fold t. fold b.
  assert (Hmax : forall x y, 0 <= x < 2 ^ 32 -> 0 <= y < 2 ^ 32 ->
                             max_t_u32 x y = Z.max x y).
  { intros x y Hx Hy. unfold max_t_u32. rewrite !Z.mod_small by assumption.
    destruct (Z.gtb_spec x y); lia. }
  unfold probe_clk_stop_timeout. fold t.
  destruct (Z.eqb_spec t 0) as [E|E].
  - cbn. fold b. split; [reflexivity|]. apply Hmax; lia.
  - cbn. fold t. fold b. split; [reflexivity|]. apply Hmax; lia.
Qed.

(** C6 on the scenario: timeout 0 on a bus at 150 ends at 300 and 300. *)
Lemma probe_clk_stop_timeout_max_witness :
  exists o,
    sdw_drv_probe (fun _ _ => 0)
      (sample_driver (Some sample_table) (Some (probe_returning 0)) None)
      (sample_slave 0x1234 0x5678 0 150) = Some o /\
    retval o = 0 /\
    prop_clk_stop_timeout (prop (st (dev_after o))) = 300 /\
    clk_stop_timeout (bus (st (dev_after o))) = 300.
Proof.
  destruct (probe_clk_stop_timeout_max (fun _ _ => 0)
              (sample_driver (Some sample_table) (Some (probe_returning 0)) None)
              (sample_slave 0x1234 0x5678 0 150)
              1%nat (mk_device_id 0x1234 0x5678) (probe_returning 0)
              (st (sample_slave 0x1234 0x5678 0 150)))
    as (o & Ho & Hr & Ht & Hb).
  - reflexivity.
  - reflexivity.
  - reflexivity.
  - reflexivity.
  - cbn. lia.
  - cbn. lia.
  - exists o. cbn in Ht. rewrite Ht in Hb. cbn in Hb. auto.
Defined.

(** ** Properties of remove and of registration *)

(** C7.  Either remove wrapper ends with the power-domain detach, made
    once and last; when the driver has a remove callback it is called
    first and its return value, error or not, is what the wrapper
    returns; without one the wrapper returns 0. *)
Theorem remove_always_detaches :
  (forall drv slave,
      let o := sdw_drv_remove drv slave in
      last (calls o) EvComplete = EvPmDetach false /\
      count is_pm_detach (calls o) = 1%nat /\
      match remove drv with
      | Some rm =>
          retval o = fst (rm (st slave)) /\
          calls o = [EvDrvRemove (fst (rm (st slave))); EvPmDetach false] /\
          st (dev_after o) = snd (rm (st slave))
      | None =>
          retval o = 0 /\ calls o = [EvPmDetach false] /\ dev_after o = slave
      end) /\
  (forall mdrv md,
      let o := sdw_master_drv_remove mdrv md in
      last (calls o) EvComplete = EvPmDetach false /\
      count is_pm_detach (calls o) = 1%nat /\
      match m_remove mdrv with
      | Some rm =>
          retval o = fst (rm md) /\
          calls o = [EvDrvRemove (fst (rm md)); EvPmDetach false] /\
          dev_after o = snd (rm md)
      | None =>
          retval o = 0 /\ calls o = [EvPmDetach false] /\ dev_after o = md
      end).
Proof.
  split.
  - intros drv slave o. subst o. unfold sdw_drv_remove.
    destruct (remove drv) as [rm|].
    + destruct (rm (st slave)) as [r s]. cbn. repeat split.
    + cbn. repeat split.
  - intros mdrv md o. subst o. unfold sdw_master_drv_remove.
    destruct (m_remove mdrv) as [rm|].
    + destruct (rm md) as [r md']. cbn. repeat split.
    + cbn. repeat split.
Qed.

(** C7 on drivers whose remove callback fails with -16: the error comes
    back and the detach is still the last call. *)
Lemma remove_always_detaches_witness :
  (let o := sdw_drv_remove
              (sample_driver (Some sample_table) (Some (probe_returning 0))
                 (Some (remove_returning (-16))))
              (sample_slave 0x1234 0x5678 0 150) in
   retval o = -16 /\ calls o = [EvDrvRemove (-16); EvPmDetach false]) /\
  (let o := sdw_master_drv_remove
              (sample_master_driver "link-0-ctrl" (Some (m_probe_returning 0))
                 (Some (m_remove_returning (-16))))
              (sample_master "link-0") in
   retval o = -16 /\ calls o = [EvDrvRemove (-16); EvPmDetach false]).
Proof.
  split.
  - destruct (proj1 remove_always_detaches
                (sample_driver (Some sample_table) (Some (probe_returning 0))
                   (Some (remove_returning (-16))))
                (sample_slave 0x1234 0x5678 0 150)) as (_ & _ & Hr & Hc & _).
    split; assumption.
  - destruct (proj2 remove_always_detaches
                (sample_master_driver "link-0-ctrl" (Some (m_probe_returning 0))
                   (Some (m_remove_returning (-16))))
                (sample_master "link-0")) as (_ & _ & Hr & Hc & _).
    split; assumption.
Defined.

(** C8.  Registering a driver of either kind that has no probe callback
    returns -EINVAL, which is an error, and makes no call to
    [driver_register]: the only call is the diagnostic. *)
Theorem register_without_probe :
  (forall driver_register drv owner,
      probe drv = None ->
      let o := __sdw_register_driver driver_register drv owner in
      retval o = - EINVAL /\ retval o <> 0 /\
      count is_driver_register (calls o) = O /\
      calls o = [EvPrErr (name drv)]) /\
  (forall driver_register mdrv owner,
      m_probe mdrv = None ->
      let o := __sdw_register_master_driver driver_register mdrv owner in
      retval o = - EINVAL /\ retval o <> 0 /\
      count is_driver_register (calls o) = O /\
      calls o = [EvPrErr (driver_name (m_driver mdrv))]).
Proof.
  split.
  - intros reg drv owner Hp o. subst o. unfold __sdw_register_driver.
    rewrite Hp. cbn. repeat split. discriminate.
  - intros reg mdrv owner Hp o. subst o. unfold __sdw_register_master_driver.
    rewrite Hp. cbn. repeat split. discriminate.
Qed.

(** C8 on the sample drivers without a probe, against a registry that
    would accept them. *)
Lemma register_without_probe_witness :
  (let o := __sdw_register_driver (fun _ => 0)
              (sample_driver (Some sample_table) None None) None in
   retval o = -22 /\ count is_driver_register (calls o) = O) /\
  (let o := __sdw_register_master_driver (fun _ => 0)
              (sample_master_driver "link-0-ctrl" None None) None in
   retval o = -22 /\ count is_driver_register (calls o) = O).
Proof.
  split.
  - destruct (proj1 register_without_probe (fun _ => 0)
                (sample_driver (Some sample_table) None None) None eq_refl)
      as (Hr & _ & Hc & _).
    split; assumption.
  - destruct (proj2 register_without_probe (fun _ => 0)
                (sample_master_driver "link-0-ctrl" None None) None eq_refl)
      as (Hr & _ & Hc & _).
    split; assumption.
Defined.

(** With a probe callback the driver does reach [driver_register], whose
    result is returned as it is. *)
Lemma register_with_probe driver_register drv owner cb :
  probe drv = Some cb ->
  let o := __sdw_register_driver driver_register drv owner in
  count is_driver_register (calls o) = 1%nat /\
  retval o = driver_register (driver (dev_after o)) /\
  driver_probe (driver (dev_after o)) = Some cb_sdw_drv_probe.
Proof.
  intros Hp o. subst o. unfold __sdw_register_driver. rewrite Hp.
  cbn. repeat split.
Qed.

(** ** More on the identity-table lookup *)

(** Whatever the table, an entry the loop returns sits at the returned
    position, carries the device's identity and a non-zero manufacturer
    id, and every entry in front of it is neither a sentinel nor equal to
    the device's identity. *)
Lemma scan_id_table_found (slave : sdw_slave) (tbl : list sdw_device_id) :
  forall idx j e n,
    scan_id_table slave tbl idx = (IdFound j e, n) ->
    exists i,
      j = (idx + i)%nat /\ n = S i /\
      nth_error tbl i = Some e /\ same_id slave e /\ mfg_id e <> 0 /\
      forall k e', (k < i)%nat -> nth_error tbl k = Some e' ->
                   mfg_id e' <> 0 /\ ~ same_id slave e'.
Proof.
  induction tbl as [|x tbl IH]; intros idx j e n H; simpl in H.
  - discriminate.
  - unfold truthy in H. destruct (Z.eqb_spec (mfg_id x) 0) as [Hx|Hx];
      simpl in H; [discriminate|].
    destruct ((slave_mfg_id (id slave) =? mfg_id x) &&
              (slave_part_id (id slave) =? part_id x)) eqn:Heq.
    + injection H as <- <- <-. exists O.
      rewrite Nat.add_0_r. repeat split; try (apply same_id_eqb in Heq; apply Heq).
      * exact Hx.
      * lia.
      * lia.
    + destruct (scan_id_table slave tbl (S idx)) as [r m] eqn:Hrec.
      injection H as -> <-.
      destruct (IH _ _ _ _ Hrec) as (i & -> & -> & Hnth & Hsame & Hm & Hbefore).
      exists (S i). repeat split; try assumption; try apply Hsame; try lia.
      * destruct k as [|k]; simpl in H0.
        -- injection H0 as <-. exact Hx.
        -- apply (Hbefore k e'); [lia | assumption].
      * destruct k as [|k]; simpl in H0.
        -- injection H0 as <-. intro Hs. apply same_id_eqb in Hs. congruence.
        -- apply (Hbefore k e'); [lia | assumption].
Qed.

(** The loop looks at the device's identity only. *)
Lemma scan_id_table_id (s1 s2 : sdw_slave) (tbl : list sdw_device_id) :
  id s1 = id s2 ->
  forall idx, scan_id_table s1 tbl idx = scan_id_table s2 tbl idx.
Proof.
  intros Hid. induction tbl as [|x tbl IH]; intros idx; simpl; [reflexivity|].
  rewrite Hid, IH. reflexivity.
Qed.

Lemma scan_id_table_behind_sentinel (slave : sdw_slave)
    (pre post post' : list sdw_device_id) (sentinel : sdw_device_id) :
  mfg_id sentinel = 0 ->
  forall idx,
    scan_id_table slave (pre ++ sentinel :: post) idx
    = scan_id_table slave (pre ++ sentinel :: post') idx.
Proof.
  intros Hs. induction pre as [|x pre IH]; intros idx; simpl.
  - unfold truthy. rewrite Hs. reflexivity.
  - rewrite IH. reflexivity.
Qed.

(** X1.  An entry that [sdw_get_device_id] returns is the entry of the
    driver's table at the returned position; it has the device's
    manufacturer and part id, its manufacturer id is not zero, and no
    entry in front of it is a sentinel or has the device's identity. *)
Theorem sdw_get_device_id_sound :
  forall slave drv i e,
    fst (sdw_get_device_id slave drv) = IdFound i e ->
    exists tbl,
      id_table drv = Some tbl /\
      nth_error tbl i = Some e /\
      same_id slave e /\
      mfg_id e <> 0 /\
      snd (sdw_get_device_id slave drv) = S i /\
      forall k e', (k < i)%nat -> nth_error tbl k = Some e' ->
                   mfg_id e' <> 0 /\ ~ same_id slave e'.
Proof.
  intros slave drv i e H. unfold sdw_get_device_id in *.
  destruct (id_table drv) as [tbl|]; [|discriminate].
  exists tbl. split; [reflexivity|].
  destruct (scan_id_table slave tbl 0) as [r n] eqn:Hscan. simpl in H. subst r.
  destruct (scan_id_table_found slave tbl _ _ _ _ Hscan)
    as (i' & Hi & Hn & Hnth & Hsame & Hm & Hbefore).
  simpl in Hi. subst i'. simpl. auto.
Qed.

Lemma sdw_get_device_id_sound_witness :
  exists tbl,
    id_table (sample_driver (Some sample_table) None None) = Some tbl /\
    nth_error tbl 1 = Some (mk_device_id 0x1234 0x5678) /\
    same_id (sample_slave 0x1234 0x5678 0 0) (mk_device_id 0x1234 0x5678) /\
    mfg_id (mk_device_id 0x1234 0x5678) <> 0 /\
    snd (sdw_get_device_id (sample_slave 0x1234 0x5678 0 0)
           (sample_driver (Some sample_table) None None)) = 2%nat /\
    forall k e', (k < 1)%nat -> nth_error tbl k = Some e' ->
                 mfg_id e' <> 0 /\
                 ~ same_id (sample_slave 0x1234 0x5678 0 0) e'.
Proof.
  apply (sdw_get_device_id_sound (sample_slave 0x1234 0x5678 0 0)
           (sample_driver (Some sample_table) None None)).
  reflexivity.
Defined.

(** X2.  A peripheral whose manufacturer id is zero matches no driver,
    whatever its table, and a probe of it that returns has returned
    -ENODEV without calling anything. *)
Theorem zero_manufacturer_never_matches :
  forall slave drv,
    slave_mfg_id (id slave) = 0 ->
    sdw_bus_match (dev_of_slave slave) (drv_of_sdw drv) <> Some 1 /\
    forall attach o,
      sdw_drv_probe attach drv slave = Some o ->
      retval o = - ENODEV /\ calls o = [] /\ dev_after o = slave.
Proof.
  intros slave drv Hz.
  assert (Hnever : forall i e, fst (sdw_get_device_id slave drv) <> IdFound i e).
  { intros i e H. unfold sdw_get_device_id in H.
    destruct (id_table drv) as [tbl|]; [|discriminate].
    destruct (scan_id_table slave tbl 0) as [r n] eqn:Hscan. simpl in H. subst r.
    destruct (scan_id_table_found slave tbl _ _ _ _ Hscan)
      as (_ & _ & _ & _ & [Hm _] & Hnz & _).
    congruence. }
  split.
  - unfold sdw_bus_match.
    destruct (fst (sdw_get_device_id slave drv)) as [i e| |] eqn:H;
      [exfalso; exact (Hnever i e eq_refl) | discriminate | discriminate].
  - intros attach o Hrun. unfold sdw_drv_probe in Hrun.
    destruct (fst (sdw_get_device_id slave drv)) as [i e| |] eqn:H.
    + exfalso. exact (Hnever i e eq_refl).
    + injection Hrun as <-. auto.
    + discriminate.
Qed.

Lemma zero_manufacturer_never_matches_witness :
  sdw_bus_match (dev_of_slave (sample_slave 0 0 0 0))
    (drv_of_sdw (sample_driver (Some sample_table) None None)) <> Some 1.
Proof.
  apply (zero_manufacturer_never_matches (sample_slave 0 0 0 0)
           (sample_driver (Some sample_table) None None)).
  reflexivity.
Defined.

(** X3.  What a table holds behind its sentinel plays no part: two
    drivers whose tables agree up to the first zero manufacturer id give
    the same lookup (entry, position and number of entries read) and the
    same match for every peripheral. *)
Theorem entries_behind_sentinel_ignored :
  forall slave d1 d2 pre sentinel post post',
    id_table d1 = Some (pre ++ sentinel :: post) ->
    id_table d2 = Some (pre ++ sentinel :: post') ->
    mfg_id sentinel = 0 ->
    sdw_get_device_id slave d1 = sdw_get_device_id slave d2 /\
    sdw_bus_match (dev_of_slave slave) (drv_of_sdw d1)
    = sdw_bus_match (dev_of_slave slave) (drv_of_sdw d2).
Proof.
  intros slave d1 d2 pre sentinel post post' H1 H2 Hs.
  assert (H : sdw_get_device_id slave d1 = sdw_get_device_id slave d2).
  { unfold sdw_get_device_id. rewrite H1, H2.
    apply scan_id_table_behind_sentinel. exact Hs. }
  split; [exact H|]. unfold sdw_bus_match. rewrite H. reflexivity.
Qed.

Lemma entries_behind_sentinel_ignored_witness :
  sdw_bus_match (dev_of_slave (sample_slave 0x1234 0x9999 0 0))
    (drv_of_sdw (sample_driver (Some sample_table) None None))
  = sdw_bus_match (dev_of_slave (sample_slave 0x1234 0x9999 0 0))
      (drv_of_sdw (sample_driver
         (Some [mk_device_id 0x025D 0x0700; mk_device_id 0x1234 0x5678;
                mk_device_id 0 0]) None None)).
Proof.
  apply (entries_behind_sentinel_ignored (sample_slave 0x1234 0x9999 0 0)
           (sample_driver (Some sample_table) None None)
           (sample_driver
              (Some [mk_device_id 0x025D 0x0700; mk_device_id 0x1234 0x5678;
                     mk_device_id 0 0]) None None)
           [mk_device_id 0x025D 0x0700; mk_device_id 0x1234 0x5678]
           (mk_device_id 0 0) [mk_device_id 0x1234 0x9999] []);
    reflexivity.
Defined.

(** ** More on the probe wrappers *)


Lemma probe_read_prop_counts (slave : sdw_slave) :
  count is_pm_attach_ok (snd (probe_read_prop slave)) = O /\
  count is_pm_detach (snd (probe_read_prop slave)) = O /\
  count is_drv_probe (snd (probe_read_prop slave)) = O /\
  (count is_read_prop (snd (probe_read_prop slave)) <= 1)%nat.
Proof.
  destruct (probe_read_prop_calls slave) as [-> | ->]; cbn; auto.
Qed.

(** X4.  When the driver has no table, or a table in which no entry in
    front of the sentinel has the device's identity, the peripheral
    probe returns -ENODEV at once: it makes no call, so the power domain
    is not attached, and it leaves the device as it was, the capability
    set not installed. *)
Theorem probe_without_entry :
  forall attach slave drv,
    (id_table drv = None \/
     exists pre sentinel post,
       id_table drv = Some (pre ++ sentinel :: post) /\
       Forall (fun e => mfg_id e <> 0) pre /\
       mfg_id sentinel = 0 /\
       forall e, In e pre -> ~ same_id slave e) ->
    exists o,
      sdw_drv_probe attach drv slave = Some o /\
      retval o = - ENODEV /\ calls o = [] /\ dev_after o = slave.
Proof.
  intros attach slave drv H.
  exists (Outcome (- ENODEV) slave []). split; [|auto].
  apply sdw_drv_probe_no_entry. unfold sdw_get_device_id.
  destruct H as [-> | (pre & s & post & -> & Hpre & Hs & Hnone)];
    [reflexivity|].
  destruct (scan_id_table_cases slave pre post s Hpre Hs O)
    as [(i & e & _ & Hnth & Hsame & _) | (-> & _)]; [|reflexivity].
  exfalso. exact (Hnone e (nth_error_In _ _ Hnth) Hsame).
Qed.

Lemma probe_without_entry_witness :
  exists o,
    sdw_drv_probe (fun _ _ => 0)
      (sample_driver (Some sample_table) (Some (probe_returning 0)) None)
      (sample_slave 0x1234 0x9999 0 150) = Some o /\
    retval o = -19 /\ calls o = [] /\
    dev_after o = sample_slave 0x1234 0x9999 0 150.
Proof.
  apply (probe_without_entry (fun _ _ => 0)
           (sample_slave 0x1234 0x9999 0 150)
           (sample_driver (Some sample_table) (Some (probe_returning 0)) None)).
  right.
  exists [mk_device_id 0x025D 0x0700; mk_device_id 0x1234 0x5678],
         (mk_device_id 0 0), [mk_device_id 0x1234 0x9999].
  split; [reflexivity|]. split; [repeat constructor; simpl; discriminate|].
  split; [reflexivity|].
  intros e [<- | [<- | []]] [H1 H2]; simpl in *; discriminate.
Defined.

(** X5.  A peripheral that [sdw_bus_match] accepts is never turned away
    by the probe's own lookup: with a probe callback and a power domain
    that attaches, the driver's probe is called, right after the attach,
    on an entry of the table that has the device's identity, and the
    wrapper returns what that call returned. *)
Theorem match_then_probe_reaches_driver :
  forall attach slave drv cb,
    sdw_bus_match (dev_of_slave slave) (drv_of_sdw drv) = Some 1 ->
    probe drv = Some cb ->
    attach (dev_of_slave (bound_to drv slave)) false = 0 ->
    exists o e tbl l,
      sdw_drv_probe attach drv slave = Some o /\
      id_table drv = Some tbl /\ In e tbl /\ same_id slave e /\
      calls o = EvPmAttach false 0 :: EvDrvProbe (fst (cb (st slave) e)) :: l /\
      retval o = fst (cb (st slave) e).
Proof.
  intros attach slave drv cb Hm Hp Hat.
  unfold sdw_bus_match in Hm.
  destruct (fst (sdw_get_device_id slave drv)) as [i e| |] eqn:Hid;
    try discriminate.
  assert (Hsound : exists tbl, id_table drv = Some tbl /\ In e tbl /\ same_id slave e).
  { unfold sdw_get_device_id in Hid.
    destruct (id_table drv) as [tbl|]; [|discriminate].
    destruct (scan_id_table slave tbl 0) as [r n] eqn:Hscan. simpl in Hid. subst r.
    destruct (scan_id_table_found slave tbl _ _ _ _ Hscan)
      as (k & _ & _ & Hnth & Hsame & _).
    exists tbl. split; [reflexivity|]. split; [|exact Hsame].
    eapply nth_error_In. eassumption. }
  destruct Hsound as (tbl & Htbl & Hin & Hsame).
  destruct (cb (st slave) e) as [r s1] eqn:Hcb.
  destruct (Z.eq_dec r 0) as [->|Hr].
  - eexists. exists e, tbl. eexists. split.
    + apply (sdw_drv_probe_success attach drv slave i e cb s1); assumption.
    + rewrite Hcb. cbn [retval calls fst app].
      split; [exact Htbl|]. split; [exact Hin|]. split; [exact Hsame|].
      split; reflexivity.
  - eexists. exists e, tbl. eexists. split.
    + apply (sdw_drv_probe_callback_error attach drv slave i e cb r s1);
        assumption.
    + rewrite Hcb. cbn [retval calls fst app].
      split; [exact Htbl|]. split; [exact Hin|]. split; [exact Hsame|].
      split; reflexivity.
Qed.

Lemma match_then_probe_reaches_driver_witness :
  exists o e tbl l,
    sdw_drv_probe (fun _ _ => 0)
      (sample_driver (Some sample_table) (Some (probe_returning (-5))) None)
      (sample_slave 0x1234 0x5678 0 150) = Some o /\
    id_table (sample_driver (Some sample_table)
                (Some (probe_returning (-5))) None) = Some tbl /\
    In e tbl /\ same_id (sample_slave 0x1234 0x5678 0 150) e /\
    calls o = EvPmAttach false 0 ::
              EvDrvProbe (fst (probe_returning (-5)
                                 (st (sample_slave 0x1234 0x5678 0 150)) e)) :: l /\
    retval o = fst (probe_returning (-5)
                      (st (sample_slave 0x1234 0x5678 0 150)) e).
Proof.
  apply (match_then_probe_reaches_driver (fun _ _ => 0)
           (sample_slave 0x1234 0x5678 0 150)
           (sample_driver (Some sample_table) (Some (probe_returning (-5))) None)
           (probe_returning (-5))); reflexivity.
Defined.

(** X6.  Power-domain balance of the probe wrappers: in every run that
    returns, the attaches that succeeded are matched one for one by
    detaches when the wrapper returns an error, and exactly one attach
    is left standing, with no detach, when it returns 0. *)
Theorem probe_power_domain_balance :
  (forall attach drv slave o,
      sdw_drv_probe attach drv slave = Some o ->
      count is_pm_attach_ok (calls o)
      = (count is_pm_detach (calls o) + (if (retval o =? 0)%Z then 1 else 0))%nat /\
      (count is_pm_attach_ok (calls o) <= 1)%nat) /\
  (forall attach mdrv md o,
      sdw_master_drv_probe attach mdrv md = Some o ->
      count is_pm_attach_ok (calls o)
      = (count is_pm_detach (calls o) + (if (retval o =? 0)%Z then 1 else 0))%nat /\
      (count is_pm_attach_ok (calls o) <= 1)%nat).
Proof.
  split.
  - intros attach drv slave o Hrun.
    destruct (sdw_drv_probe_inv attach drv slave o Hrun)
      as [(_ & ->) | [(r & Hr & ->) | [(cb & e & r & s1 & _ & _ & Hr & ->)
         | (cb & e & s1 & _ & _ & Hret & _ & Hcalls)]]].
    + cbn. lia.
    + cbn [retval calls]. apply Z.eqb_neq in Hr. rewrite Hr.
      unfold count. cbn. rewrite Hr. cbn. lia.
    + cbn [retval calls]. apply Z.eqb_neq in Hr. rewrite Hr. cbn. lia.
    + rewrite Hret, Hcalls. rewrite !count_app.
      destruct (probe_read_prop_counts (set_st (bound_to drv slave) s1))
        as (-> & -> & _). cbn. lia.
  - intros attach mdrv md o. unfold sdw_master_drv_probe. cbv zeta.
    unfold truthy.
    destruct (Z.eqb_spec (attach (dev_of_master md) false) 0) as [Hat|Hat];
      cbn [negb].
    + rewrite Hat. destruct (m_probe mdrv) as [cb|]; [|discriminate].
      destruct (cb md (pdata md)) as [r md1].
      destruct (Z.eqb_spec r 0) as [->|Hr]; cbn [negb];
        intros H; injection H as <-; cbn [retval calls].
      * cbn. lia.
      * apply Z.eqb_neq in Hr. rewrite Hr. cbn. lia.
    + intros H. injection H as <-. cbn [retval calls].
      apply Z.eqb_neq in Hat. rewrite Hat. unfold count. cbn. rewrite Hat.
      cbn. lia.
Qed.

(** X7.  Order of the driver calls in a peripheral probe: the driver's
    probe is called at most once, only right after an attach that
    returned 0, and its return value is the wrapper's; [read_prop] is
    called at most once and only in a run that returns 0, hence after a
    driver probe that returned 0. *)
Theorem probe_call_order :
  forall attach drv slave o,
    sdw_drv_probe attach drv slave = Some o ->
    (forall r, In (EvDrvProbe r) (calls o) ->
               retval o = r /\
               exists l, calls o = EvPmAttach false 0 :: EvDrvProbe r :: l) /\
    (In EvReadProp (calls o) -> retval o = 0 /\ In (EvDrvProbe 0) (calls o)) /\
    (count is_drv_probe (calls o) <= 1)%nat /\
    (count is_read_prop (calls o) <= 1)%nat.
Proof.
  intros attach drv slave o Hrun.
  destruct (sdw_drv_probe_inv attach drv slave o Hrun)
    as [(_ & ->) | [(r & Hr & ->) | [(cb & e & r & s1 & _ & _ & Hr & ->)
       | (cb & e & s1 & _ & _ & Hret & _ & Hcalls)]]]; cbn [retval calls].
  - split; [|split; [|split]]; [ | | cbn; lia | cbn; lia].
    + intros r' [].
    + intros [].
  - split; [|split; [|split]]; [ | | cbn; lia | cbn; lia].
    + intros r' [H|[]]. discriminate.
    + intros [H|[]]. discriminate.
  - split; [|split; [|split]]; [ | | cbn; lia | cbn; lia].
    + intros r' [H|[H|[H|[H|[]]]]]; try discriminate.
      injection H as <-. split; [reflexivity | eexists; reflexivity].
    + intros [H|[H|[H|[H|[]]]]]; discriminate.
  - rewrite Hcalls, Hret.
    destruct (probe_read_prop_counts (set_st (bound_to drv slave) s1))
      as (_ & _ & Hdp & Hrp).
    split; [|split; [|split]].
    + intros r Hin. simpl in Hin.
      destruct Hin as [H|[H|Hin]]; try discriminate.
      * injection H as <-. split; [reflexivity | eexists; reflexivity].
      * exfalso. apply in_app_or in Hin. destruct Hin as [Hin|[H|[]]];
          [|discriminate].
        destruct (probe_read_prop_calls (set_st (bound_to drv slave) s1))
          as [E|E]; rewrite E in Hin; simpl in Hin;
          [contradiction | destruct Hin as [H|[]]; discriminate].
    + intros _. split; [reflexivity | simpl; auto].
    + rewrite !count_app, Hdp. cbn. lia.
    + rewrite !count_app. cbn. lia.
Qed.

(** X7 on a run in which the driver's probe fails. *)
Lemma probe_call_order_witness :
  exists o,
    sdw_drv_probe (fun _ _ => 0)
      (sample_driver (Some sample_table) (Some (probe_returning (-5))) None)
      (sample_slave 0x1234 0x5678 0 150) = Some o /\
    (count is_drv_probe (calls o) <= 1)%nat /\
    (count is_read_prop (calls o) <= 1)%nat.
Proof.
  eexists. split; [reflexivity|].
  apply (probe_call_order (fun _ _ => 0)
           (sample_driver (Some sample_table) (Some (probe_returning (-5))) None)
           (sample_slave 0x1234 0x5678 0 150)).
  reflexivity.
Defined.

(** X6 on a run in which the driver's probe fails: one attach, one
    detach. *)
Lemma probe_power_domain_balance_witness :
  exists o,
    sdw_drv_probe (fun _ _ => 0)
      (sample_driver (Some sample_table) (Some (probe_returning (-5))) None)
      (sample_slave 0x1234 0x5678 0 150) = Some o /\
    count is_pm_attach_ok (calls o) = 1%nat /\
    count is_pm_detach (calls o) = 1%nat.
Proof.
  eexists. split; [reflexivity|].
  destruct (proj1 probe_power_domain_balance (fun _ _ => 0)
              (sample_driver (Some sample_table) (Some (probe_returning (-5))) None)
              (sample_slave 0x1234 0x5678 0 150) _ eq_refl) as [H _].
  split; [exact H | reflexivity].
Defined.



(** X9.  A successful peripheral probe followed by the remove wrapper:
    over the two runs the power domain is attached once and detached
    once, the detach being the last call.  The remove wrapper itself
    writes nothing to the device: the state is what the driver's remove
    callback returned, and without such a callback the device is exactly
    as the probe left it, its probed flag still true. *)
Theorem probe_then_remove :
  forall attach drv slave o1,
    sdw_drv_probe attach drv slave = Some o1 ->
    retval o1 = 0 ->
    let o2 := sdw_drv_remove drv (dev_after o1) in
    count is_pm_attach_ok (calls o1 ++ calls o2) = 1%nat /\
    count is_pm_detach (calls o1 ++ calls o2) = 1%nat /\
    last (calls o1 ++ calls o2) EvComplete = EvPmDetach false /\
    st (dev_after o2)
    = match remove drv with
      | Some rm => snd (rm (st (dev_after o1)))
      | None => st (dev_after o1)
      end /\
    ops (dev_after o2) = ops (dev_after o1) /\
    (remove drv = None ->
     retval o2 = 0 /\ dev_after o2 = dev_after o1 /\
     probed (st (dev_after o2)) = true).
Proof.
  intros attach drv slave o1 Hrun Hret o2.
  destruct (sdw_drv_probe_inv attach drv slave o1 Hrun)
    as [(_ & ->) | [(r & Hr & ->) | [(cb & e & r & s1 & _ & _ & Hr & ->)
       | (cb & e & s1 & _ & _ & _ & Hpr & Hcalls)]]];
    try (cbn [retval] in Hret; first [discriminate | contradiction]).
  assert (Hc1 : count is_pm_attach_ok (calls o1) = 1%nat /\
                count is_pm_detach (calls o1) = O).
  { rewrite Hcalls, !count_app.
    destruct (probe_read_prop_counts (set_st (bound_to drv slave) s1))
      as (-> & -> & _). split; reflexivity. }
  destruct Hc1 as [Ha Hd].
  subst o2. unfold sdw_drv_remove.
  destruct (remove drv) as [rm|].
  - destruct (rm (st (dev_after o1))) as [r s]. cbn [calls dev_after retval].
    rewrite !count_app, Ha, Hd.
    replace (calls o1 ++ [EvDrvRemove r] ++ [EvPmDetach false])
      with ((calls o1 ++ [EvDrvRemove r]) ++ [EvPmDetach false])
      by (rewrite <- app_assoc; reflexivity).
    rewrite last_last. cbn. repeat split; discriminate.
  - cbn [calls dev_after retval]. change ([] ++ [EvPmDetach false]) with [EvPmDetach false].
    rewrite !count_app, Ha, Hd, last_last. cbn. repeat split. exact Hpr.
Qed.

Lemma probe_then_remove_witness :
  exists o1,
    sdw_drv_probe (fun _ _ => 0)
      (sample_driver (Some sample_table) (Some (probe_returning 0)) None)
      (sample_slave 0x1234 0x5678 0 150) = Some o1 /\
    let o2 := sdw_drv_remove
                (sample_driver (Some sample_table) (Some (probe_returning 0)) None)
                (dev_after o1) in
    count is_pm_attach_ok (calls o1 ++ calls o2) = 1%nat /\
    count is_pm_detach (calls o1 ++ calls o2) = 1%nat /\
    probed (st (dev_after o2)) = true.
Proof.
  eexists. split; [reflexivity|].
  destruct (probe_then_remove (fun _ _ => 0)
              (sample_driver (Some sample_table) (Some (probe_returning 0)) None)
              (sample_slave 0x1234 0x5678 0 150) _ eq_refl eq_refl)
    as (Ha & Hd & _ & _ & _ & Hn).
  split; [exact Ha|]. split; [exact Hd|]. apply Hn. reflexivity.
Defined.

(** ** The bus-wide timeout over several probes *)

Lemma effective_timeout_range (t : Z) :
  0 <= t < 2 ^ 32 -> 0 < effective_timeout t < 2 ^ 32.
Proof.
  intros H. unfold effective_timeout.
  destruct (Z.eqb_spec t 0); [split; reflexivity | lia].
Qed.

Lemma max_t_u32_max (x y : Z) :
  0 <= x < 2 ^ 32 -> 0 <= y < 2 ^ 32 -> max_t_u32 x y = Z.max x y.
Proof.
  intros Hx Hy. unfold max_t_u32. rewrite !Z.mod_small by assumption.
  destruct (Z.gtb_spec x y); lia.
Qed.

Lemma probe_clk_stop_timeout_bus (s : slave_state) :
  0 <= prop_clk_stop_timeout (prop s) < 2 ^ 32 ->
  0 <= clk_stop_timeout (bus s) < 2 ^ 32 ->
  clk_stop_timeout (bus (probe_clk_stop_timeout s))
  = Z.max (clk_stop_timeout (bus s))
          (effective_timeout (prop_clk_stop_timeout (prop s))) /\
  prop_clk_stop_timeout (prop (probe_clk_stop_timeout s))
  = effective_timeout (prop_clk_stop_timeout (prop s)).
Proof.
  intros Ht Hb. unfold probe_clk_stop_timeout, effective_timeout.
  destruct (Z.eqb_spec (prop_clk_stop_timeout (prop s)) 0) as [E|E]; cbn.
  - split; [apply max_t_u32_max; lia | reflexivity].
  - split; [apply max_t_u32_max; lia | reflexivity].
Qed.

(** One probe of a quiet driver on the bus instance [b]. *)
Lemma probe_on_quiet_bus (attach : device -> bool -> Z) (drv : sdw_driver)
    (b : sdw_bus) (slave : sdw_slave) :
  quiet_driver drv ->
  (forall d, attach d false = 0) ->
  (exists i e, fst (sdw_get_device_id slave drv) = IdFound i e) ->
  0 <= prop_clk_stop_timeout (prop (st slave)) < 2 ^ 32 ->
  0 <= clk_stop_timeout b < 2 ^ 32 ->
  exists o,
    sdw_drv_probe attach drv (on_bus b slave) = Some o /\
    retval o = 0 /\
    clk_stop_timeout (bus (st (dev_after o)))
    = Z.max (clk_stop_timeout b)
            (effective_timeout (prop_clk_stop_timeout (prop (st slave)))) /\
    prop_clk_stop_timeout (prop (st (dev_after o)))
    = effective_timeout (prop_clk_stop_timeout (prop (st slave))).
Proof.
  intros [(cb & Hp & Hcb) Hrp] Hat (i & e & Hid) Ht Hb.
  assert (Hid' : fst (sdw_get_device_id (on_bus b slave) drv) = IdFound i e).
  { rewrite <- Hid. unfold sdw_get_device_id.
    destruct (id_table drv) as [tbl|]; [|reflexivity].
    rewrite (scan_id_table_id (on_bus b slave) slave tbl eq_refl). reflexivity. }
  destruct (Hcb e) as [Hzero Hkeep].
  set (s0 := st (on_bus b slave)).
  assert (Hcall : cb s0 e = (0, snd (cb s0 e))).
  { rewrite <- (Hzero s0). destruct (cb s0 e); reflexivity. }
  eexists. split.
  { apply (sdw_drv_probe_success attach drv (on_bus b slave) i e cb
             (snd (cb s0 e)) Hid' (Hat _) Hp Hcall). }
  cbn [retval dev_after st set_st bus prop set_probe_complete set_probed].
  split; [reflexivity|].
  assert (Hst : bus (st (after_callbacks drv (on_bus b slave) (snd (cb s0 e)))) = b /\
                prop (st (after_callbacks drv (on_bus b slave) (snd (cb s0 e))))
                = prop (st slave)).
  { destruct (Hkeep s0) as [Hb1 Hp1]. cbn beta in Hb1, Hp1.
    unfold after_callbacks, probe_read_prop, bound_to.
    cbn [ops set_st set_ops st].
    destruct (drv_ops drv) as [o|] eqn:Ho.
    - destruct (read_prop o) as [rp|] eqn:Hr.
      + destruct (Hrp o rp eq_refl Hr (snd (cb s0 e))) as [Hb2 Hp2].
        cbn beta in Hb2, Hp2. cbn [fst st set_st].
        rewrite Hb2, Hp2, Hb1, Hp1. split; reflexivity.
      + cbn [fst st set_st]. rewrite Hb1, Hp1. split; reflexivity.
    - cbn [fst st set_st]. rewrite Hb1, Hp1. split; reflexivity. }
  destruct Hst as [Hbus Hprop].
  destruct (probe_clk_stop_timeout_bus
              (st (after_callbacks drv (on_bus b slave) (snd (cb s0 e)))))
    as [H1 H2]; rewrite ?Hbus, ?Hprop; try assumption.
  rewrite Hbus, Hprop in H1. rewrite Hprop in H2. split; assumption.
Qed.

Lemma probe_sequence_timeout (attach : device -> bool -> Z) (drv : sdw_driver)
    (slaves : list sdw_slave) :
  quiet_driver drv ->
  (forall d, attach d false = 0) ->
  Forall (fun s => exists i e, fst (sdw_get_device_id s drv) = IdFound i e)
         slaves ->
  Forall (fun s => 0 <= prop_clk_stop_timeout (prop (st s)) < 2 ^ 32) slaves ->
  forall b,
    0 <= clk_stop_timeout b < 2 ^ 32 ->
    exists b',
      probe_sequence attach drv b slaves = Some b' /\
      clk_stop_timeout b'
      = fold_left Z.max
          (map (fun s => effective_timeout (prop_clk_stop_timeout (prop (st s))))
               slaves)
          (clk_stop_timeout b).
Proof.
  intros Hq Hat Hfound Hrange.
  induction slaves as [|s rest IH]; intros b Hb.
  - exists b. split; reflexivity.
  - inversion Hfound as [|? ? Hs Hfound']; subst.
    inversion Hrange as [|? ? Ht Hrange']; subst.
    destruct (probe_on_quiet_bus attach drv b s Hq Hat Hs Ht Hb)
      as (o & Hrun & _ & Hbus & _).
    cbn [probe_sequence]. rewrite Hrun.
    pose proof (effective_timeout_range _ Ht) as He.
    destruct (IH Hfound' Hrange' (bus (st (dev_after o)))) as (b' & Hseq & Hb').
    { rewrite Hbus. lia. }
    exists b'. split; [exact Hseq|].
    rewrite Hb', Hbus. reflexivity.
Qed.

Lemma fold_left_max_perm (l l' : list Z) :
  Permutation l l' ->
  forall a, fold_left Z.max l a = fold_left Z.max l' a.
Proof.
  induction 1 as [|x l l' _ IH|x y l|l l' l'' _ IH1 _ IH2]; intros a; simpl.
  - reflexivity.
  - apply IH.
  - f_equal. lia.
  - rewrite IH1. apply IH2.
Qed.

Lemma fold_left_max_ge (l : list Z) :
  forall a, a <= fold_left Z.max l a /\
            forall x, In x l -> x <= fold_left Z.max l a.
Proof.
  induction l as [|y l IH]; intros a; simpl.
  - split; [lia | intros x []].
  - destruct (IH (Z.max a y)) as [H1 H2]. split; [lia|].
    intros x [<- | Hin]; [lia | apply H2; assumption].
Qed.

(** X10.  Peripherals of one bus probed one after the other by a driver
    whose callbacks succeed and leave the timeouts alone: the bus-wide
    clock-stop timeout ends at the largest of its initial value and the
    devices' timeouts, a device that declares 0 counting for 300.  In
    particular it is never below its initial value nor below the
    timeout of any probed device. *)
Theorem probe_sequence_max :
  forall attach drv slaves b,
    quiet_driver drv ->
    (forall d, attach d false = 0) ->
    Forall (fun s => exists i e, fst (sdw_get_device_id s drv) = IdFound i e)
           slaves ->
    Forall (fun s => 0 <= prop_clk_stop_timeout (prop (st s)) < 2 ^ 32) slaves ->
    0 <= clk_stop_timeout b < 2 ^ 32 ->
    exists b',
      probe_sequence attach drv b slaves = Some b' /\
      clk_stop_timeout b'
      = fold_left Z.max
          (map (fun s => effective_timeout (prop_clk_stop_timeout (prop (st s))))
               slaves)
          (clk_stop_timeout b) /\
      clk_stop_timeout b <= clk_stop_timeout b' /\
      forall s, In s slaves ->
                effective_timeout (prop_clk_stop_timeout (prop (st s)))
                <= clk_stop_timeout b'.
Proof.
  intros attach drv slaves b Hq Hat Hfound Hrange Hb.
  destruct (probe_sequence_timeout attach drv slaves Hq Hat Hfound Hrange b Hb)
    as (b' & Hseq & Hb').
  exists b'. split; [exact Hseq|]. split; [exact Hb'|].
  rewrite Hb'.
  destruct (fold_left_max_ge
              (map (fun s => effective_timeout (prop_clk_stop_timeout (prop (st s))))
                   slaves) (clk_stop_timeout b)) as [H1 H2].
  split; [exact H1|].
  intros s Hin. apply H2.
  apply (in_map (fun s => effective_timeout (prop_clk_stop_timeout (prop (st s))))).
  exact Hin.
Qed.

(** X11.  The order of the probes does not matter to the bus-wide
    timeout: for such a driver, probing the same peripherals in any
    other order ends with the same bus-wide clock-stop timeout. *)
Theorem probe_sequence_order_independent :
  forall attach drv slaves slaves' b,
    quiet_driver drv ->
    (forall d, attach d false = 0) ->
    Forall (fun s => exists i e, fst (sdw_get_device_id s drv) = IdFound i e)
           slaves ->
    Forall (fun s => 0 <= prop_clk_stop_timeout (prop (st s)) < 2 ^ 32) slaves ->
    0 <= clk_stop_timeout b < 2 ^ 32 ->
    Permutation slaves slaves' ->
    exists b1 b2,
      probe_sequence attach drv b slaves = Some b1 /\
      probe_sequence attach drv b slaves' = Some b2 /\
      clk_stop_timeout b1 = clk_stop_timeout b2.
Proof.
  intros attach drv slaves slaves' b Hq Hat Hfound Hrange Hb Hperm.
  destruct (probe_sequence_timeout attach drv slaves Hq Hat Hfound Hrange b Hb)
    as (b1 & Hseq1 & Hb1).
  destruct (probe_sequence_timeout attach drv slaves' Hq Hat
              (Permutation_Forall Hperm Hfound)
              (Permutation_Forall Hperm Hrange) b Hb)
    as (b2 & Hseq2 & Hb2).
  exists b1, b2. split; [exact Hseq1|]. split; [exact Hseq2|].
  rewrite Hb1, Hb2. apply fold_left_max_perm.
  apply Permutation_map. exact Hperm.
Qed.

Lemma sample_driver_quiet :
  quiet_driver (sample_driver (Some sample_table) (Some (probe_returning 0)) None).
Proof.
  split.
  - exists (probe_returning 0). split; [reflexivity|].
    intros e. split; [reflexivity|]. intros s. split; reflexivity.
  - intros o rp H. discriminate.
Qed.

(** X10 on two peripherals, timeouts 0 and 500, on a bus at 150. *)
Lemma probe_sequence_max_witness :
  exists b',
    probe_sequence (fun _ _ => 0)
      (sample_driver (Some sample_table) (Some (probe_returning 0)) None)
      (mk_bus 150)
      [sample_slave 0x1234 0x5678 0 0; sample_slave 0x025D 0x0700 500 0]
    = Some b' /\
    clk_stop_timeout b' = 500.
Proof.
  destruct (probe_sequence_max (fun _ _ => 0)
              (sample_driver (Some sample_table) (Some (probe_returning 0)) None)
              [sample_slave 0x1234 0x5678 0 0; sample_slave 0x025D 0x0700 500 0]
              (mk_bus 150) sample_driver_quiet)
    as (b' & Hseq & Hb' & _).
  - reflexivity.
  - repeat constructor; eexists; eexists; reflexivity.
  - repeat constructor; simpl; lia.
  - simpl. lia.
  - exists b'. split; [exact Hseq | exact Hb'].
Defined.

(** X11 on the same two peripherals in both orders. *)
Lemma probe_sequence_order_independent_witness :
  exists b1 b2,
    probe_sequence (fun _ _ => 0)
      (sample_driver (Some sample_table) (Some (probe_returning 0)) None)
      (mk_bus 150)
      [sample_slave 0x1234 0x5678 0 0; sample_slave 0x025D 0x0700 500 0]
    = Some b1 /\
    probe_sequence (fun _ _ => 0)
      (sample_driver (Some sample_table) (Some (probe_returning 0)) None)
      (mk_bus 150)
      [sample_slave 0x025D 0x0700 500 0; sample_slave 0x1234 0x5678 0 0]
    = Some b2 /\
    clk_stop_timeout b1 = clk_stop_timeout b2.
Proof.
  apply (probe_sequence_order_independent (fun _ _ => 0)
           (sample_driver (Some sample_table) (Some (probe_returning 0)) None)
           [sample_slave 0x1234 0x5678 0 0; sample_slave 0x025D 0x0700 500 0]
           [sample_slave 0x025D 0x0700 500 0; sample_slave 0x1234 0x5678 0 0]
           (mk_bus 150) sample_driver_quiet).
  - reflexivity.
  - repeat constructor; eexists; eexists; reflexivity.
  - repeat constructor; simpl; lia.
  - simpl. lia.
  - apply perm_swap.
Defined.

(** ** More on registration *)

(** X12.  Registering a driver that has a probe callback, of either
    kind: [driver_register] is called once, on the embedded driver
    record as the function leaves it, and its result is returned as it
    is.  That record is bound to the SoundWire bus and to [owner], has
    the bus's probe wrapper as probe hook, and has the bus's remove and
    shutdown wrappers as hooks exactly where the driver has that
    callback, the hook being left as it was otherwise. *)
Theorem register_installs_hooks :
  (forall driver_register drv owner cb,
      probe drv = Some cb ->
      let o := __sdw_register_driver driver_register drv owner in
      let d := driver (dev_after o) in
      calls o = [EvDriverRegister d (driver_register d)] /\
      retval o = driver_register d /\
      driver_bus d = Some sdw_bus_type /\
      driver_owner d = owner /\
      driver_name d = driver_name (driver drv) /\
      driver_probe d = Some cb_sdw_drv_probe /\
      driver_remove d
      = match remove drv with
        | Some _ => Some cb_sdw_drv_remove
        | None => driver_remove (driver drv)
        end /\
      driver_shutdown d
      = match shutdown drv with
        | Some _ => Some cb_sdw_drv_shutdown
        | None => driver_shutdown (driver drv)
        end) /\
  (forall driver_register mdrv owner cb,
      m_probe mdrv = Some cb ->
      let o := __sdw_register_master_driver driver_register mdrv owner in
      let d := m_driver (dev_after o) in
      calls o = [EvDriverRegister d (driver_register d)] /\
      retval o = driver_register d /\
      driver_bus d = Some sdw_bus_type /\
      driver_owner d = owner /\
      driver_name d = driver_name (m_driver mdrv) /\
      driver_probe d = Some cb_sdw_master_drv_probe /\
      driver_remove d
      = match m_remove mdrv with
        | Some _ => Some cb_sdw_master_drv_remove
        | None => driver_remove (m_driver mdrv)
        end /\
      driver_shutdown d
      = match m_shutdown mdrv with
        | Some _ => Some cb_sdw_master_drv_shutdown
        | None => driver_shutdown (m_driver mdrv)
        end).
Proof.
  split.
  - intros reg drv owner cb Hp o d. subst d o. unfold __sdw_register_driver.
    rewrite Hp. cbn. repeat split.
  - intros reg mdrv owner cb Hp o d. subst d o.
    unfold __sdw_register_master_driver. rewrite Hp. cbn. repeat split.
Qed.

(** X12 on a driver with a probe and a remove callback but no shutdown,
    against a registry that answers -17. *)
Lemma register_installs_hooks_witness :
  let o := __sdw_register_driver (fun _ => -17)
             (sample_driver (Some sample_table) (Some (probe_returning 0))
                (Some (remove_returning 0))) (Some "codec_module") in
  retval o = -17 /\
  driver_probe (driver (dev_after o)) = Some cb_sdw_drv_probe /\
  driver_remove (driver (dev_after o)) = Some cb_sdw_drv_remove /\
  driver_shutdown (driver (dev_after o)) = None.
Proof.
  destruct (proj1 register_installs_hooks (fun _ => -17)
              (sample_driver (Some sample_table) (Some (probe_returning 0))
                 (Some (remove_returning 0))) (Some "codec_module")
              (probe_returning 0) eq_refl)
    as (_ & Hr & _ & _ & _ & Hp & Hrm & Hsh).
  repeat split; assumption.
Defined.

(** X13.  Registration, whether it succeeds or not, writes only the
    embedded driver record: the driver's name, callbacks, table and
    capability set are as before.  A driver refused for want of a probe
    callback is nevertheless left bound to the SoundWire bus, its owner
    and hooks untouched. *)
Theorem register_frame :
  (forall driver_register drv owner,
      let o := __sdw_register_driver driver_register drv owner in
      name (dev_after o) = name drv /\
      probe (dev_after o) = probe drv /\
      remove (dev_after o) = remove drv /\
      shutdown (dev_after o) = shutdown drv /\
      id_table (dev_after o) = id_table drv /\
      drv_ops (dev_after o) = drv_ops drv /\
      driver_bus (driver (dev_after o)) = Some sdw_bus_type /\
      (probe drv = None ->
       driver (dev_after o)
       = mk_device_driver (driver_name (driver drv)) (Some sdw_bus_type)
           (driver_owner (driver drv)) (driver_probe (driver drv))
           (driver_remove (driver drv)) (driver_shutdown (driver drv)))) /\
  (forall driver_register mdrv owner,
      let o := __sdw_register_master_driver driver_register mdrv owner in
      m_probe (dev_after o) = m_probe mdrv /\
      m_remove (dev_after o) = m_remove mdrv /\
      m_shutdown (dev_after o) = m_shutdown mdrv /\
      driver_bus (m_driver (dev_after o)) = Some sdw_bus_type /\
      (m_probe mdrv = None ->
       m_driver (dev_after o)
       = mk_device_driver (driver_name (m_driver mdrv)) (Some sdw_bus_type)
           (driver_owner (m_driver mdrv)) (driver_probe (m_driver mdrv))
           (driver_remove (m_driver mdrv)) (driver_shutdown (m_driver mdrv)))).
Proof.
  split.
  - intros reg drv owner o. subst o. unfold __sdw_register_driver.
    destruct (probe drv) eqn:Hp; cbn; rewrite ?Hp; repeat split; discriminate.
  - intros reg mdrv owner o. subst o. unfold __sdw_register_master_driver.
    destruct (m_probe mdrv) eqn:Hp; cbn; rewrite ?Hp; repeat split; discriminate.
Qed.


Lemma register_frame_witness :
  let o := __sdw_register_driver (fun _ => 0)
             (sample_driver (Some sample_table) None None) (Some "codec_module") in
  driver (dev_after o)
  = mk_device_driver "codec" (Some sdw_bus_type) None None None None.
Proof.
  apply (proj1 register_frame (fun _ => 0)
           (sample_driver (Some sample_table) None None) (Some "codec_module")).
  reflexivity.
Defined.

(** ** More on the modalias and the uevent *)

Lemma substring_length (s : string) (n : nat) :
  String.length (substring 0 n s) = Nat.min n (String.length s).
Proof.
  revert n. induction s as [|c r IH]; intros [|n]; simpl; try reflexivity.
  rewrite IH. reflexivity.
Qed.

Lemma substring_append_short (a b : string) (n : nat) :
  (n <= String.length a)%nat ->
  substring 0 n (a ++ b)%string = substring 0 n a.
Proof.
  revert n. induction a as [|c r IH]; intros [|n] H; simpl in *;
    try reflexivity; try lia.
  - destruct b; reflexivity.
  - rewrite IH by lia. reflexivity.
Qed.

Lemma append_length (a b : string) :
  String.length (a ++ b)%string = (String.length a + String.length b)%nat.
Proof. induction a as [|c r IH]; simpl; [reflexivity | rewrite IH; reflexivity]. Qed.

(** The text a peripheral's identity expands the format to. *)
Lemma sdw_slave_modalias_text (slave : sdw_slave) (buf : string) :
  0 <= slave_mfg_id (id slave) < 65536 ->
  0 <= slave_part_id (id slave) < 65536 ->
  fst (sdw_slave_modalias slave buf 32)
  = ("sdw:m" ++ fmt_04X (slave_mfg_id (id slave)) ++ "p" ++
     fmt_04X (slave_part_id (id slave)) ++ String LF "")%string /\
  String.length (fst (sdw_slave_modalias slave buf 32)) = 15%nat.
Proof.
  intros Hm Hp. unfold sdw_slave_modalias, snprintf. cbn [fst].
  assert (Hlen : String.length
            ("sdw:m" ++ fmt_04X (slave_mfg_id (id slave)) ++ "p" ++
             fmt_04X (slave_part_id (id slave)) ++ String LF "")%string
          = 15%nat).
  { rewrite !fmt_04X_u16 by assumption. reflexivity. }
  rewrite substring_all by lia. split; [reflexivity | exact Hlen].
Qed.

(** X15.  Buffer bound of the peripheral formatter: into a buffer of
    [size] bytes it writes the first [size - 1] characters of the full
    15-character text and no more, it writes nothing at all when [size]
    is zero, and in every case it returns 15, the length of the full
    text, so that a caller can tell a truncation. *)
Theorem sdw_slave_modalias_truncation :
  forall slave buf,
    0 <= slave_mfg_id (id slave) < 65536 ->
    0 <= slave_part_id (id slave) < 65536 ->
    sdw_slave_modalias slave buf 0 = (buf, 15) /\
    forall n,
      fst (sdw_slave_modalias slave buf (S n))
      = substring 0 n (fst (sdw_slave_modalias slave "" 32)) /\
      String.length (fst (sdw_slave_modalias slave buf (S n))) = Nat.min n 15 /\
      snd (sdw_slave_modalias slave buf (S n)) = 15.
Proof.
  intros slave buf Hm Hp.
  destruct (sdw_slave_modalias_text slave "" Hm Hp) as [Htext Hlen].
  assert (Hret : forall b k, snd (sdw_slave_modalias slave b k) = 15).
  { intros b k. unfold sdw_slave_modalias, snprintf. cbn [snd].
    rewrite <- Htext, Hlen. reflexivity. }
  split.
  - rewrite (surjective_pairing (sdw_slave_modalias slave buf 0)), Hret.
    reflexivity.
  - intros n.
    assert (Hfst : fst (sdw_slave_modalias slave buf (S n))
                   = substring 0 n (fst (sdw_slave_modalias slave "" 32))).
    { rewrite Htext. reflexivity. }
    split; [exact Hfst|]. split; [|apply Hret].
    rewrite Hfst, substring_length, Hlen. reflexivity.
Qed.

(** X15 on a 10-byte buffer: nine characters are written. *)
Lemma sdw_slave_modalias_truncation_witness :
  fst (sdw_slave_modalias (sample_slave 0x1234 0x5678 0 0) "" 10) = "sdw:m1234"
  /\ snd (sdw_slave_modalias (sample_slave 0x1234 0x5678 0 0) "" 10) = 15.
Proof.
  destruct (sdw_slave_modalias_truncation (sample_slave 0x1234 0x5678 0 0) "")
    as [_ H]; [simpl; lia | simpl; lia |].
  destruct (H 9%nat) as (H1 & _ & H3).
  split; [rewrite H1; reflexivity | exact H3].
Defined.

(** X16.  The modalias tells peripherals apart: two devices with 16-bit
    identifiers for which the formatter writes the same text into a
    buffer of at least 16 bytes have the same manufacturer and part
    id. *)
Theorem sdw_slave_modalias_injective :
  forall s1 s2 buf1 buf2 size,
    0 <= slave_mfg_id (id s1) < 65536 ->
    0 <= slave_part_id (id s1) < 65536 ->
    0 <= slave_mfg_id (id s2) < 65536 ->
    0 <= slave_part_id (id s2) < 65536 ->
    (16 <= size)%nat ->
    fst (sdw_slave_modalias s1 buf1 size) = fst (sdw_slave_modalias s2 buf2 size) ->
    id s1 = id s2.
Proof.
  intros s1 s2 buf1 buf2 size Hm1 Hp1 Hm2 Hp2 Hsize Heq.
  assert (Hfull : forall s b,
             0 <= slave_mfg_id (id s) < 65536 ->
             0 <= slave_part_id (id s) < 65536 ->
             fst (sdw_slave_modalias s b size)
             = ("sdw:m" ++ fmt_04X (slave_mfg_id (id s)) ++ "p" ++
                fmt_04X (slave_part_id (id s)) ++ String LF "")%string).
  { intros s b Hm Hp. unfold sdw_slave_modalias, snprintf. cbn [fst].
    destruct size as [|n]; [lia|].
    apply substring_all. rewrite !fmt_04X_u16 by assumption. simpl. lia. }
  rewrite (Hfull s1 buf1 Hm1 Hp1), (Hfull s2 buf2 Hm2 Hp2) in Heq.
  assert (Hfm : fmt_04X (slave_mfg_id (id s1)) = fmt_04X (slave_mfg_id (id s2)) /\
                fmt_04X (slave_part_id (id s1)) = fmt_04X (slave_part_id (id s2))).
  { rewrite (fmt_04X_u16 _ Hm1), (fmt_04X_u16 _ Hm2),
            (fmt_04X_u16 _ Hp1), (fmt_04X_u16 _ Hp2) in *.
    cbn in Heq. injection Heq as -> -> -> -> -> -> -> ->.
    split; reflexivity. }
  destruct Hfm as [Hf1 Hf2].
  pose proof (fmt_04X_parse _ Hm1) as P1. rewrite Hf1, (fmt_04X_parse _ Hm2) in P1.
  pose proof (fmt_04X_parse _ Hp1) as P2. rewrite Hf2, (fmt_04X_parse _ Hp2) in P2.
  injection P1 as P1. injection P2 as P2.
  destruct (id s1), (id s2). simpl in *. congruence.
Qed.

Lemma sdw_slave_modalias_injective_witness :
  id (sample_slave 0x1234 0x5678 0 0) = id (sample_slave 0x1234 0x5678 7 150).
Proof.
  apply (sdw_slave_modalias_injective (sample_slave 0x1234 0x5678 0 0)
           (sample_slave 0x1234 0x5678 7 150) "" "" 32);
    try (simpl; lia).
  reflexivity.
Defined.

(** X17.  [sdw_uevent] publishes one variable, "MODALIAS=" followed by
    at most 31 characters whatever the device, so the 32-byte buffer is
    never overrun; it returns 0 when [add_uevent_var] does and -ENOMEM
    for any other answer. *)
Theorem sdw_uevent_bounded :
  forall add_uevent_var dev,
    exists v,
      snd (sdw_uevent add_uevent_var dev)
      = [EvUeventVar ("MODALIAS=" ++ v)%string
           (add_uevent_var ("MODALIAS=" ++ v)%string)] /\
      (String.length v <= 31)%nat /\
      fst (sdw_uevent add_uevent_var dev)
      = (if add_uevent_var ("MODALIAS=" ++ v)%string =? 0 then 0 else - ENOMEM).
Proof.
  intros add dev. unfold sdw_uevent.
  set (v := match dev with
            | dev_of_slave slave => fst (sdw_slave_modalias slave "" 32)
            | dev_of_master md => fst (sdw_master_modalias md "" 32)
            end).
  exists v. split; [reflexivity|]. split.
  - subst v. destruct dev; unfold sdw_slave_modalias, sdw_master_modalias,
      snprintf; cbn [fst]; rewrite substring_length; lia.
  - cbn [fst]. unfold truthy.
    destruct (add ("MODALIAS=" ++ v)%string =? 0); reflexivity.
Qed.

(** X18.  The controller formatter in the 32-byte buffer of
    [sdw_uevent], for a name held without a NUL inside: a name of up to
    26 characters is written whole between
    "sdw:" and the line feed; a longer name is cut after its 27th
    character and the line feed is lost, the value returned (the name's
    length plus 5) being then larger than 31. *)
Theorem sdw_master_modalias_cut :
  forall md buf,
    nul_free (master_name md) ->
    snd (sdw_master_modalias md buf 32)
    = Z.of_nat (String.length (master_name md)) + 5 /\
    ((String.length (master_name md) <= 26)%nat ->
     fst (sdw_master_modalias md buf 32)
     = ("sdw:" ++ master_name md ++ String LF "")%string) /\
    ((27 <= String.length (master_name md))%nat ->
     fst (sdw_master_modalias md buf 32)
     = ("sdw:" ++ substring 0 27 (master_name md))%string /\
     31 < snd (sdw_master_modalias md buf 32)).
Proof.
  intros md buf _. unfold sdw_master_modalias, snprintf. cbn [fst snd].
  assert (Hlen : String.length ("sdw:" ++ master_name md ++ String LF "")%string
                 = (String.length (master_name md) + 5)%nat).
  { rewrite !append_length. simpl. lia. }
  split; [rewrite Hlen; lia|]. split.
  - intros H. apply substring_all. rewrite Hlen. lia.
  - intros H. split; [|rewrite Hlen; lia].
    cbn [append substring]. do 4 f_equal.
    apply substring_append_short. exact H.
Qed.

Lemma sdw_master_modalias_cut_witness :
  fst (sdw_master_modalias
         (sample_master "soundwire-controller-link-number-0") "" 32)
  = "sdw:soundwire-controller-link-n".
Proof.
  destruct (sdw_master_modalias_cut
              (sample_master "soundwire-controller-link-number-0") "")
    as (_ & _ & H).
  - simpl. repeat split; discriminate.
  - destruct H as [H _]; [simpl; lia|]. rewrite H. reflexivity.
Defined.

(** ** More on the controller match *)

Lemma sdw_bus_match_controller_prefix (md : sdw_master_device)
    (mdrv : sdw_master_driver) :
  sdw_bus_match (dev_of_master md) (drv_of_master mdrv) = Some 1 <->
  exists rest,
    c_str (driver_name (m_driver mdrv))
    = (c_str (master_name md) ++ rest)%string.
Proof.
  unfold sdw_bus_match, lnot. rewrite <- strncmp_strlen_prefix.
  destruct (Z.eqb_spec (strncmp (master_name md) (driver_name (m_driver mdrv))
                          (strlen (master_name md))) 0) as [E|E].
  - split; [intros _; exact E | reflexivity].
  - split; [discriminate | contradiction].
Qed.

Lemma sdw_bus_match_controller_bool (md : sdw_master_device)
    (mdrv : sdw_master_driver) :
  sdw_bus_match (dev_of_master md) (drv_of_master mdrv) = Some 1 \/
  sdw_bus_match (dev_of_master md) (drv_of_master mdrv) = Some 0.
Proof.
  unfold sdw_bus_match, lnot.
  destruct (strncmp (master_name md) (driver_name (m_driver mdrv))
              (strlen (master_name md)) =? 0); auto.
Qed.

(** X19.  A controller whose name is empty matches every controller
    driver: the comparison runs over zero characters. *)
Theorem empty_controller_name_matches_all :
  forall md mdrv,
    master_name md = "" ->
    sdw_bus_match (dev_of_master md) (drv_of_master mdrv) = Some 1.
Proof.
  intros md mdrv H. apply sdw_bus_match_controller_prefix.
  rewrite H. exists (c_str (driver_name (m_driver mdrv))). reflexivity.
Qed.

Lemma empty_controller_name_matches_all_witness :
  sdw_bus_match (dev_of_master (sample_master ""))
    (drv_of_master (sample_master_driver "intel-sdw" None None)) = Some 1.
Proof.
  apply (empty_controller_name_matches_all (sample_master "")
           (sample_master_driver "intel-sdw" None None)).
  reflexivity.
Defined.

(** X20.  For names held without a NUL inside: a controller always
    matches a driver of the same name, never matches a driver whose name
    is shorter than its own, and two names that match each way round
    are equal. *)
Theorem controller_match_by_length :
  forall md mdrv,
    nul_free (master_name md) ->
    nul_free (driver_name (m_driver mdrv)) ->
    (master_name md = driver_name (m_driver mdrv) ->
     sdw_bus_match (dev_of_master md) (drv_of_master mdrv) = Some 1) /\
    ((String.length (driver_name (m_driver mdrv))
      < String.length (master_name md))%nat ->
     sdw_bus_match (dev_of_master md) (drv_of_master mdrv) = Some 0) /\
    (forall md' mdrv',
        master_name md' = driver_name (m_driver mdrv) ->
        driver_name (m_driver mdrv') = master_name md ->
        sdw_bus_match (dev_of_master md) (drv_of_master mdrv) = Some 1 ->
        sdw_bus_match (dev_of_master md') (drv_of_master mdrv') = Some 1 ->
        master_name md = driver_name (m_driver mdrv)).
Proof.
  intros md mdrv Hd Hr.
  pose proof (sdw_bus_match_controller_prefix md mdrv) as Hiff.
  rewrite (c_str_nul_free _ Hd), (c_str_nul_free _ Hr) in Hiff.
  split; [|split].
  - intros Heq. apply Hiff. exists "". rewrite Heq.
    clear. induction (driver_name (m_driver mdrv)) as [|c r IH]; simpl;
      [reflexivity | rewrite <- IH; reflexivity].
  - intros Hlt.
    destruct (sdw_bus_match_controller_bool md mdrv) as [H|H]; [|exact H].
    exfalso. apply Hiff in H. destruct H as [rest H].
    rewrite H, append_length in Hlt. lia.
  - intros md' mdrv' Hn1 Hn2 H1 H2.
    apply Hiff in H1. destruct H1 as [r1 H1].
    apply sdw_bus_match_controller_prefix in H2.
    rewrite Hn1, Hn2, (c_str_nul_free _ Hd), (c_str_nul_free _ Hr) in H2.
    destruct H2 as [r2 H2].
    assert (Hlen : String.length r1 = O).
    { pose proof (f_equal String.length H1) as L1.
      pose proof (f_equal String.length H2) as L2.
      rewrite append_length in L1, L2. lia. }
    destruct r1; [|discriminate].
    rewrite H1. clear. induction (master_name md) as [|c r IH]; simpl;
      [reflexivity | rewrite <- IH; reflexivity].
Qed.

(** X20 on "link-0" against a driver named "link". *)
Lemma controller_match_by_length_witness :
  sdw_bus_match (dev_of_master (sample_master "link-0"))
    (drv_of_master (sample_master_driver "link" None None)) = Some 0.
Proof.
  destruct (controller_match_by_length (sample_master "link-0")
              (sample_master_driver "link" None None)) as (_ & H & _).
  - simpl. repeat split; discriminate.
  - simpl. repeat split; discriminate.
  - apply H. simpl. lia.
Defined.

(** ** The controller device *)

Lemma fmt_d_inj (a b : Z) : fmt_d a = fmt_d b -> a = b.
Proof.
  unfold fmt_d. intros H.
  assert (Hnn : forall z, Z.to_int z <> Pos Nil /\ Z.to_int z <> Neg Nil).
  { intros [|p|p]; simpl; split; try discriminate;
      intros E; injection E as E; exact (Unsigned.to_uint_nonnil p E). }
  apply DecimalZ.to_int_inj.
  pose proof (NilZero.isi (Z.to_int a) (proj1 (Hnn a)) (proj2 (Hnn a))) as Ha.
  pose proof (NilZero.isi (Z.to_int b) (proj1 (Hnn b)) (proj2 (Hnn b))) as Hb.
  rewrite H in Ha. congruence.
Qed.



(** X22.  Controllers added under different link ids get different
    device names: the names of two objects that
    [sdw_master_device_add] returned are equal only if their link ids
    are. *)
Theorem master_device_names_distinct :
  forall ok1 reg1 name1 parent1 fw1 link1 pd1 md1 dev1 log1
         ok2 reg2 name2 parent2 fw2 link2 pd2 md2 dev2 log2,
    sdw_master_device_add ok1 reg1 name1 parent1 fw1 link1 pd1
    = Some (ptr_to (md1, dev1), log1) ->
    sdw_master_device_add ok2 reg2 name2 parent2 fw2 link2 pd2
    = Some (ptr_to (md2, dev2), log2) ->
    dev_name dev1 = ("sdw-master-" ++ fmt_d link1)%string /\
    (dev_name dev1 = dev_name dev2 -> link1 = link2).
Proof.
  intros ok1 reg1 name1 parent1 fw1 link1 pd1 md1 dev1 log1
         ok2 reg2 name2 parent2 fw2 link2 pd2 md2 dev2 log2 H1 H2.
  assert (Hname : forall ok reg name parent fw link pd md dev log,
             sdw_master_device_add ok reg name parent fw link pd
             = Some (ptr_to (md, dev), log) ->
             dev_name dev = ("sdw-master-" ++ fmt_d link)%string).
  { intros ok reg name parent fw link pd md dev log H.
    unfold sdw_master_device_add in H. destruct ok; cbn [negb] in H;
      [|discriminate].
    destruct parent as [pa|]; [|discriminate]. cbv zeta in H.
    destruct (truthy _) in H; [discriminate|].
    injection H as _ <- _. reflexivity. }
  rewrite (Hname _ _ _ _ _ _ _ _ _ _ H1), (Hname _ _ _ _ _ _ _ _ _ _ H2).
  split; [reflexivity|]. intros Heq. cbn in Heq.
  injection Heq as Heq. apply fmt_d_inj. exact Heq.
Qed.

(** X22 on links 0 and 1 of one parent. *)
Lemma master_device_names_distinct_witness :
  exists md1 dev1 log1 md2 dev2 log2,
    sdw_master_device_add true (fun _ => 0) "link-0"
      (Some (mk_parent_device 64)) 0 0 0 = Some (ptr_to (md1, dev1), log1) /\
    sdw_master_device_add true (fun _ => 0) "link-1"
      (Some (mk_parent_device 64)) 0 1 0 = Some (ptr_to (md2, dev2), log2) /\
    dev_name dev1 = "sdw-master-0" /\
    dev_name dev1 <> dev_name dev2.
Proof.
  do 6 eexists. split; [reflexivity|]. split; [reflexivity|].
  destruct (master_device_names_distinct
              true (fun _ => 0) "link-0" (Some (mk_parent_device 64)) 0 0 0
              _ _ _
              true (fun _ => 0) "link-1" (Some (mk_parent_device 64)) 0 1 0
              _ _ _ eq_refl eq_refl) as [Hn Hinj].
  split; [exact Hn|]. intros E. specialize (Hinj E). discriminate.
Defined.



(** With a driver bound, [sdw_master_device_startup] calls only
    the startup callback and [sdw_master_device_process_wake_event]
    only the wake callback, once, and each returns what its callback
    returned, an error included; neither writes the embedded device, and
    a driver that lacks the callback gives 0 with the object unchanged. *)
Theorem startup_dispatch :
  forall md dev mdrv,
    dev_driver dev = Some mdrv ->
    (forall f, m_startup mdrv = Some f ->
               sdw_master_device_startup (ptr_to (md, dev))
               = (fst (f md), ptr_to (snd (f md), dev), [MEvStartup (fst (f md))])) /\
    (m_startup mdrv = None ->
     sdw_master_device_startup (ptr_to (md, dev)) = (0, ptr_to (md, dev), [])) /\
    (forall f, m_process_wake_event mdrv = Some f ->
               sdw_master_device_process_wake_event (ptr_to (md, dev))
               = (fst (f md), ptr_to (snd (f md), dev),
                  [MEvWakeEvent (fst (f md))])) /\
    (m_process_wake_event mdrv = None ->
     sdw_master_device_process_wake_event (ptr_to (md, dev))
     = (0, ptr_to (md, dev), [])).
Proof.
  intros md dev mdrv Hd.
  unfold sdw_master_device_startup, sdw_master_device_process_wake_event.
  rewrite Hd. repeat split.
  - intros f Hf. rewrite Hf. destruct (f md); reflexivity.
  - intros Hf. rewrite Hf. reflexivity.
  - intros f Hf. rewrite Hf. destruct (f md); reflexivity.
  - intros Hf. rewrite Hf. reflexivity.
Qed.

(** ** Further invariants *)

(** X24.  [sdw_bus_match] answers 0 or 1 and nothing else, whichever the
    kind of device: it never hands the registry an error code. *)
Theorem sdw_bus_match_boolean :
  forall dev ddrv r,
    sdw_bus_match dev ddrv = Some r -> r = 0 \/ r = 1.
Proof.
  intros dev ddrv r H. unfold sdw_bus_match in H.
  destruct dev as [slave|md], ddrv as [drv|mdrv]; try discriminate.
  - destruct (fst (sdw_get_device_id slave drv)); simpl in H;
      [injection H as <-; auto | injection H as <-; auto | discriminate].
  - injection H as <-. unfold lnot.
    destruct (_ =? 0); auto.
Qed.

Lemma sdw_bus_match_boolean_witness :
  exists r,
    sdw_bus_match (dev_of_master (sample_master "link-0"))
      (drv_of_master (sample_master_driver "link" None None)) = Some r /\
    (r = 0 \/ r = 1).
Proof.
  eexists. split; [reflexivity|].
  apply (sdw_bus_match_boolean
           (dev_of_master (sample_master "link-0"))
           (drv_of_master (sample_master_driver "link" None None))).
  reflexivity.
Defined.

(** X25.  After a successful peripheral probe (32-bit timeouts once the
    driver's callbacks have run) the device's clock-stop timeout is not
    zero, the bus-wide timeout is at least the device's and not below
    what it was, and a timeout the device declared itself is kept. *)
Theorem probe_timeout_invariants :
  forall attach drv slave i e cb s1,
    fst (sdw_get_device_id slave drv) = IdFound i e ->
    attach (dev_of_slave (bound_to drv slave)) false = 0 ->
    probe drv = Some cb ->
    cb (st slave) e = (0, s1) ->
    let t := prop_clk_stop_timeout (prop (st (after_callbacks drv slave s1))) in
    let b := clk_stop_timeout (bus (st (after_callbacks drv slave s1))) in
    0 <= t < 2 ^ 32 ->
    0 <= b < 2 ^ 32 ->
    exists o,
      sdw_drv_probe attach drv slave = Some o /\
      0 < prop_clk_stop_timeout (prop (st (dev_after o))) < 2 ^ 32 /\
      prop_clk_stop_timeout (prop (st (dev_after o)))
      <= clk_stop_timeout (bus (st (dev_after o))) < 2 ^ 32 /\
      b <= clk_stop_timeout (bus (st (dev_after o))) /\
      (t <> 0 -> prop_clk_stop_timeout (prop (st (dev_after o))) = t).
Proof.
  intros attach drv slave i e cb s1 Hid Hat Hp Hcb t b Ht Hb.
  eexists. split; [apply (sdw_drv_probe_success attach drv slave i e cb s1);
                   assumption|].
  cbn [dev_after st set_st bus prop set_probe_complete set_probed].
  destruct (probe_clk_stop_timeout_bus (st (after_callbacks drv slave s1)) Ht Hb)
    as [H1 H2].
  fold t in H1, H2. fold b in H1. rewrite H1, H2.
  pose proof (effective_timeout_range t Ht) as He.
  split; [exact He|]. split; [lia|]. split; [lia|].
  intros Hnz. unfold effective_timeout.
  destruct (Z.eqb_spec t 0); [contradiction | reflexivity].
Qed.

(** X25 on a device that declares 500 on a bus at 150. *)
Lemma probe_timeout_invariants_witness :
  exists o,
    sdw_drv_probe (fun _ _ => 0)
      (sample_driver (Some sample_table) (Some (probe_returning 0)) None)
      (sample_slave 0x1234 0x5678 500 150) = Some o /\
    prop_clk_stop_timeout (prop (st (dev_after o))) = 500 /\
    500 <= clk_stop_timeout (bus (st (dev_after o))).
Proof.
  destruct (probe_timeout_invariants (fun _ _ => 0)
              (sample_driver (Some sample_table) (Some (probe_returning 0)) None)
              (sample_slave 0x1234 0x5678 500 150)
              1%nat (mk_device_id 0x1234 0x5678) (probe_returning 0)
              (st (sample_slave 0x1234 0x5678 500 150)))
    as (o & Ho & _ & Hle & _ & Hkeep).
  - reflexivity.
  - reflexivity.
  - reflexivity.
  - reflexivity.
  - cbn. lia.
  - cbn. lia.
  - exists o. split; [exact Ho|].
    assert (Ht : prop_clk_stop_timeout (prop (st (dev_after o))) = 500).
    { apply Hkeep. cbn. discriminate. }
    split; [exact Ht|]. rewrite Ht in Hle. lia.
Defined.
